(** * The worker client of execute.py: a shallow embedding and its properties

    The file follows src/execute.py.  The Python runtime pieces the program
    leans on (exceptions and their classes, [int] on a string, [json.dumps],
    [open], [requests.post], [print], [time.sleep]) are modelled in [Py];
    the functions of the program itself come after, under the names they
    have in the source.  Effects are explicit: a computation takes the table
    of open files and gives back an outcome (a value or a raised exception),
    the events it emitted, in order, and the new table. *)

From Stdlib Require Import String Ascii ZArith List Bool Lia DecimalString DecimalPos.
Import ListNotations.
Local Open Scope string_scope.
Local Open Scope Z_scope.
Set Warnings "-register-all".

(* ===================================================================== *)
(** ** The Python runtime the program uses *)
(* ===================================================================== *)

Module Py.

(** Exception classes.  [bases] lists the direct base classes, as in the
    class statements of the interpreter and of the requests package
    (requests' JSONDecodeError has two bases). *)
Inductive exc_class : Set :=
| BaseException | Exception
| SystemExit | KeyboardInterrupt | GeneratorExit
| ValueError | TypeError | LookupError | KeyError | RuntimeError
| OSError | FileNotFoundError
| RequestException | ConnectionError | Timeout | JSONDecodeError.

Scheme Equality for exc_class.

Definition bases (c : exc_class) : list exc_class :=
  match c with
  | BaseException => []
  | Exception | SystemExit | KeyboardInterrupt | GeneratorExit => [BaseException]
  | ValueError | TypeError | LookupError | RuntimeError | OSError => [Exception]
  | KeyError => [LookupError]
  | FileNotFoundError => [OSError]
  | RequestException => [OSError]
  | ConnectionError | Timeout => [RequestException]
  | JSONDecodeError => [RequestException; ValueError]
  end.

Fixpoint issubclass_upto (depth : nat) (c d : exc_class) : bool :=
  exc_class_beq c d ||
  match depth with
  | O => false
  | S depth' => existsb (fun b => issubclass_upto depth' b d) (bases c)
  end.

(** The hierarchy above is at most five classes deep. *)
Definition issubclass (c d : exc_class) : bool := issubclass_upto 5 c d.

(** A raised exception: its class and what [str(e)] gives. *)
Record exn : Set := mk_exn { exc_type : exc_class; exc_str : string }.

Definition isinstance (e : exn) (c : exc_class) : bool :=
  issubclass (exc_type e) c.

(** Values as [response.json()] and [json.dumps] see them.  A dict keeps its
    insertion order and its keys are pairwise distinct; a float is kept as
    its literal. *)
Inductive pyval : Set :=
| PNone
| PBool (b : bool)
| PInt (z : Z)
| PFloat (literal : string)
| PStr (s : string)
| PList (items : list pyval)
| PDict (entries : list (string * pyval)).

Inductive outcome (A : Type) : Type :=
| Ok (a : A)
| Raise (e : exn).
Arguments Ok {A} a.
Arguments Raise {A} e.

Fixpoint dict_get (entries : list (string * pyval)) (key : string) : option pyval :=
  match entries with
  | [] => None
  | (k, v) :: rest => if String.eqb k key then Some v else dict_get rest key
  end.

Definition squote : string := "'".

(** [v[key]] for a string key. *)
Definition getitem (v : pyval) (key : string) : outcome pyval :=
  match v with
  | PDict entries =>
      match dict_get entries key with
      | Some x => Ok x
      | None => Raise (mk_exn KeyError (squote ++ key ++ squote))
      end
  | PList _ => Raise (mk_exn TypeError "list indices must be integers or slices, not str")
  | PStr _ => Raise (mk_exn TypeError "string indices must be integers, not 'str'")
  | PNone => Raise (mk_exn TypeError "'NoneType' object is not subscriptable")
  | PBool _ => Raise (mk_exn TypeError "'bool' object is not subscriptable")
  | PInt _ => Raise (mk_exn TypeError "'int' object is not subscriptable")
  | PFloat _ => Raise (mk_exn TypeError "'float' object is not subscriptable")
  end.

(** *** [str] of an integer *)

Definition str_of_int (z : Z) : string := NilZero.string_of_int (Z.to_int z).

(** *** [int] of a string, base ten

    Surrounding white space is dropped, one sign is allowed, the digits may
    be separated by single underscores, and a literal of more than 4300
    digits is refused (the interpreter's default limit).  A character is a
    code point below 256.  The white space [int] drops there is U+0009 to
    U+000D, U+0020, U+0085 and U+00A0; the separators U+001C to U+001F,
    which [str.strip] takes for blanks, are not among it.  [None] stands
    for the [ValueError] the interpreter raises. *)

Definition is_space (c : ascii) : bool :=
  let n := nat_of_ascii c in
  ((9 <=? n) && (n <=? 13) || (n =? 32) || (n =? 133) || (n =? 160))%nat.

Definition digit_of (c : ascii) : option Z :=
  let n := nat_of_ascii c in
  if ((48 <=? n) && (n <=? 57))%nat then Some (Z.of_nat n - 48) else None.

Fixpoint lstrip (s : string) : string :=
  match s with
  | EmptyString => EmptyString
  | String c rest => if is_space c then lstrip rest else s
  end.

Fixpoint rstrip (s : string) : string :=
  match s with
  | EmptyString => EmptyString
  | String c rest =>
      match rstrip rest with
      | EmptyString => if is_space c then EmptyString else String c EmptyString
      | kept => String c kept
      end
  end.

Definition strip (s : string) : string := rstrip (lstrip s).

(** [after_digit] tells whether the previous character was a digit: an
    underscore is accepted only there, and the literal must end on a digit. *)
Fixpoint digits_value (s : string) (acc : Z) (after_digit : bool) : option Z :=
  match s with
  | EmptyString => if after_digit then Some acc else None
  | String c rest =>
      match digit_of c with
      | Some d => digits_value rest (10 * acc + d) true
      | None =>
          if Ascii.eqb c "_" && after_digit
          then digits_value rest acc false
          else None
      end
  end.

Fixpoint digit_count (s : string) : nat :=
  match s with
  | EmptyString => O
  | String c rest =>
      match digit_of c with
      | Some _ => S (digit_count rest)
      | None => digit_count rest
      end
  end.

Definition int_max_str_digits : nat := 4300.

Definition unsigned_value (s : string) : option Z :=
  if (int_max_str_digits <? digit_count s)%nat then None
  else digits_value s 0 false.

Definition int_of_str (s : string) : option Z :=
  match strip s with
  | String "-" rest => option_map Z.opp (unsigned_value rest)
  | String "+" rest => unsigned_value rest
  | body => unsigned_value body
  end.

(** *** [json.dumps] with its default separators and [ensure_ascii]

    A character is a code point below 256; all but the printable ASCII
    ones are written as escapes. *)

Definition dquote : string := String (ascii_of_nat 34) EmptyString.
Definition backslash : string := String (ascii_of_nat 92) EmptyString.

Definition hex_digit (n : nat) : ascii :=
  if (n <? 10)%nat then ascii_of_nat (48 + n) else ascii_of_nat (87 + n).

Definition escape_char (c : ascii) : string :=
  let n := nat_of_ascii c in
  if (n =? 34)%nat then backslash ++ dquote
  else if (n =? 92)%nat then backslash ++ backslash
  else if (n =? 10)%nat then backslash ++ "n"
  else if (n =? 13)%nat then backslash ++ "r"
  else if (n =? 9)%nat then backslash ++ "t"
  else if (n =? 8)%nat then backslash ++ "b"
  else if (n =? 12)%nat then backslash ++ "f"
  else if ((n <? 32) || (126 <? n))%nat
       then backslash ++ "u00"
            ++ String (hex_digit (n / 16)) (String (hex_digit (n mod 16)) EmptyString)
  else String c EmptyString.

Fixpoint escape (s : string) : string :=
  match s with
  | EmptyString => EmptyString
  | String c rest => escape_char c ++ escape rest
  end.

Definition json_string (s : string) : string := dquote ++ escape s ++ dquote.

Fixpoint json_dumps (v : pyval) : string :=
  match v with
  | PNone => "null"
  | PBool true => "true"
  | PBool false => "false"
  | PInt z => str_of_int z
  | PFloat literal => literal
  | PStr s => json_string s
  | PList items =>
      "[" ++
      (fix join (l : list pyval) : string :=
         match l with
         | [] => EmptyString
         | x :: rest =>
             match rest with
             | [] => json_dumps x
             | _ :: _ => json_dumps x ++ ", " ++ join rest
             end
         end) items
      ++ "]"
  | PDict entries =>
      "{" ++
      (fix join (l : list (string * pyval)) : string :=
         match l with
         | [] => EmptyString
         | (k, x) :: rest =>
             match rest with
             | [] => json_string k ++ ": " ++ json_dumps x
             | _ :: _ => json_string k ++ ": " ++ json_dumps x ++ ", " ++ join rest
             end
         end) entries
      ++ "}"
  end.

End Py.
Import Py.

(* ===================================================================== *)
(** ** Effects *)
(* ===================================================================== *)

(** An open file object: the descriptor it got and the path it was opened on. *)
Record file_obj : Set := mk_file { fileno : nat; file_name : string }.

(** The files the program holds open, and the next free descriptor. *)
Record fs_state : Set := mk_fs { next_fd : nat; open_files : list file_obj }.

(** One part of a multipart upload: an open file, or the tuple
    [(filename, data, content_type)]. *)
Inductive part : Set :=
| FilePart (f : file_obj)
| FieldPart (filename : option string) (data : string) (content_type : string).

(** What [requests.post] is given besides the URL and the timeout: the
    [json=] argument or the [files=] argument (a dict, in insertion order). *)
Inductive payload : Set :=
| JsonPayload (v : pyval)
| FilesPayload (files : list (string * part)).

Record request : Set := mk_request { url : string; timeout : Z; body : payload }.

(** A response: its status code and what [response.json()] gives ([None]
    when the body is not JSON). *)
Record response : Set := mk_response { status_code : Z; json : option pyval }.

(** What the program does to the outside, in the order it does it. *)
Inductive event : Set :=
| EvPrint (line : string)
| EvSleep (seconds : Z)
| EvPost (q : request)
| EvOpen (path mode : string)
| EvClose (f : file_obj)
| EvTrain (task_args : pyval) (gpu_index : Z).

(** The outside during one cycle of the loop: how the coordinator answers a
    request (or which exception [requests.post] raises), whether a path can
    be opened, and how the training of lines 29-63 ends. *)
Record cycle_env : Type := mk_env {
  post_reply : request -> outcome response;
  open_error : string -> option exn;
  train_error : pyval -> Z -> option exn
}.

Record run (A : Type) : Type := mk_run {
  result : A;
  trace : list event;
  final : fs_state
}.
Arguments mk_run {A} result trace final.
Arguments result {A} r.
Arguments trace {A} r.
Arguments final {A} r.

Definition M (A : Type) : Type := fs_state -> run (outcome A).

Definition ret {A} (a : A) : M A := fun st => mk_run (Ok a) [] st.

Definition raise {A} (e : exn) : M A := fun st => mk_run (Raise e) [] st.

(** The run [r] seen after the events [t] have happened. *)
Definition after {A} (t : list event) (r : run A) : run A :=
  mk_run (result r) (t ++ trace r) (final r).

Definition bind {A B} (m : M A) (k : A -> M B) : M B :=
  fun st =>
    let r := m st in
    match result r with
    | Ok a => after (trace r) (k a (final r))
    | Raise e => mk_run (Raise e) (trace r) (final r)
    end.

(** [try: body  except cls as e: handler e] *)
Definition try_except {A} (body : M A) (cls : exc_class) (handler : exn -> M A) : M A :=
  fun st =>
    let r := body st in
    match result r with
    | Ok a => r
    | Raise e =>
        if isinstance e cls
        then after (trace r) (handler e (final r))
        else r
    end.

Definition emit (ev : event) : M unit := fun st => mk_run (Ok tt) [ev] st.

Definition lift {A} (o : outcome A) : M A := fun st => mk_run o [] st.

Declare Scope py_scope.
Delimit Scope py_scope with py.
Notation "x <- m ;; k" := (bind m (fun x => k))
  (at level 61, m at next level, right associativity) : py_scope.
Notation "m ;; k" := (bind m (fun _ => k))
  (at level 61, right associativity) : py_scope.
Local Open Scope py_scope.

(** *** The lifetime of file objects

    The source closes no file itself; CPython closes a file when the last
    reference to the file object goes.  The objects made since the state
    [mark] are the entries of the table after those of [mark]; when they
    become unreachable their files are closed and their descriptors are
    free again.  No event is recorded: this is the interpreter's doing, not
    a statement of the program. *)
Definition finalize (mark now : fs_state) : fs_state :=
  mk_fs (next_fd mark) (firstn (length (open_files mark)) (open_files now)).

(** The evaluation of an expression: when an exception leaves it, the
    values it had built so far go with the unwinding. *)
Definition evaluating {A} (m : M A) : M A :=
  fun st =>
    let r := m st in
    match result r with
    | Ok _ => r
    | Raise e => mk_run (Raise e) (trace r) (finalize st (final r))
    end.

(** The body of a function none of whose objects is returned or stored
    elsewhere: on a return its locals go with the frame; on an exception
    the traceback keeps the frame, and with it the locals, for as long as
    the exception is held. *)
Definition returning {A} (m : M A) : M A :=
  fun st =>
    let r := m st in
    match result r with
    | Ok a => mk_run (Ok a) (trace r) (finalize st (final r))
    | Raise _ => r
    end.

(** The end of an [except ... as e] clause entered from the state [mark]:
    [e] is deleted, and the frames its traceback held go with it. *)
Definition end_of_except (mark : fs_state) : M unit :=
  fun st => mk_run (Ok tt) [] (finalize mark st).

(** [open(path, mode)] *)
Definition py_open (env : cycle_env) (path mode : string) : M file_obj :=
  fun st =>
    match open_error env path with
    | Some e => mk_run (Raise e) [EvOpen path mode] st
    | None =>
        let f := mk_file (next_fd st) path in
        mk_run (Ok f) [EvOpen path mode]
               (mk_fs (S (next_fd st)) (open_files st ++ [f]))
    end.

(** [f.close()] *)
Definition py_close (f : file_obj) : M unit :=
  fun st =>
    mk_run (Ok tt) [EvClose f]
           (mk_fs (next_fd st)
                  (filter (fun g => negb (Nat.eqb (fileno g) (fileno f))) (open_files st))).

(** [requests.post(url, timeout=..., json=... / files=...)] *)
Definition requests_post (env : cycle_env) (q : request) : M response :=
  fun st => mk_run (post_reply env q) [EvPost q] st.

(** [response.json()].  The class of the exception is the one raised for
    every body that is not JSON; its text, which in the interpreter tells
    where the parser stopped, is one text here. *)
Definition response_json (r : response) : M pyval :=
  match json r with
  | Some v => ret v
  | None => raise (mk_exn JSONDecodeError "Expecting value: line 1 column 1 (char 0)")
  end.

(** [int(s)] *)
Definition py_int (s : string) : M Z :=
  match int_of_str s with
  | Some z => ret z
  | None =>
      raise (mk_exn ValueError
               ("invalid literal for int() with base 10: " ++ squote ++ s ++ squote))
  end.

(** [time.sleep(seconds)] *)
Definition time_sleep (seconds : Z) : M unit := emit (EvSleep seconds).

(* ===================================================================== *)
(** ** The program: src/execute.py *)
(* ===================================================================== *)

Definition node_url : string := "https://mainnet.nimble.technology:443".

(** The escape character written [\033] in the source. *)
Definition ESC : string := String (ascii_of_nat 27) EmptyString.
Definition BLUE : string := ESC ++ "[34m".
Definition RED : string := ESC ++ "[31m".
Definition YELLOW : string := ESC ++ "[33m".
Definition GREEN : string := ESC ++ "[32m".
Definition END_COLOR : string := ESC ++ "[0m".

Definition print (line : string) : M unit := emit (EvPrint line).

Definition print_in_color (text color_code : string) : M unit :=
  print (color_code ++ text ++ END_COLOR).

(** Lines 29-63 of [execute]: tokenizer, model, dataset, [trainer.train()]
    and [trainer.save_model].  They run in torch and transformers; the
    program sees whether they return or raise. *)
Definition run_training (env : cycle_env) (task_args : pyval) (gpu_index : Z) : M unit :=
  fun st =>
    mk_run (match train_error env task_args gpu_index with
            | None => Ok tt
            | Some e => Raise e
            end)
           [EvTrain task_args gpu_index] st.

Definition execute (env : cycle_env) (task_args : pyval) (gpu_index : Z) : M unit :=
  print_in_color "Starting training..." BLUE ;;
  run_training env task_args gpu_index.

Definition register_url : string := node_url ++ "/register_particle".
Definition complete_url : string := node_url ++ "/complete_task".

Definition register_particle (env : cycle_env) (addr : string) : M pyval :=
  let url := register_url in
  response <- requests_post env
                (mk_request url 10 (JsonPayload (PDict [("address", PStr addr)]))) ;;
  if negb (status_code response =? 200)
  then raise (mk_exn Exception "Failed to init particle: Try later.")
  else
    task <- response_json response ;;
    lift (getitem task "args").

Definition config_path : string := "my_model/config.json".
Definition training_args_path : string := "my_model/training_args.bin".

(** The two file objects are values of the dict display until [files] is
    bound, and locals of the call from then on. *)
Definition complete_task (env : cycle_env) (wallet_address : string) : M pyval :=
  returning
    (let url := complete_url in
     files <- evaluating
                (file1 <- py_open env config_path "rb" ;;
                 file2 <- py_open env training_args_path "rb" ;;
                 ret [("file1", FilePart file1); ("file2", FilePart file2)]) ;;
     let json_data := json_dumps (PDict [("address", PStr wallet_address)]) in
     let files := (files ++ [("r", FieldPart None json_data "application/json")])%list in
     response <- requests_post env (mk_request url 60 (FilesPayload files)) ;;
     if negb (status_code response =? 200)
     then raise (mk_exn Exception "Failed to complete task: Try later.")
     else response_json response).

(** The process as [perform] finds it: the command line, the CUDA devices,
    and the outside during each cycle of the loop. *)
Record world : Type := mk_world {
  sys_argv : list string;
  device_count : Z;
  get_device_name : Z -> string;
  cycles : nat -> cycle_env
}.

Fixpoint for_each {A} (l : list A) (f : A -> M unit) : M unit :=
  match l with
  | [] => ret tt
  | x :: rest => f x ;; for_each rest f
  end.

Definition range (n : Z) : list Z := map Z.of_nat (seq 0 (Z.to_nat n)).

(** Lines 117-127: the choice of the GPU index. *)
Definition select_gpu_index (argv : list string) (num_devices : Z) : M Z :=
  match nth_error argv 2 with
  | Some arg2 =>
      try_except
        (gpu_index <- py_int arg2 ;;
         if (gpu_index <? 0) || (gpu_index >=? num_devices)
         then raise (mk_exn ValueError EmptyString)
         else ret gpu_index)
        ValueError
        (fun _ =>
           print_in_color
             ("Error: Invalid GPU index '" ++ arg2 ++ "'. Using default (0).") RED ;;
           ret 0)
  | None =>
      print_in_color "No GPU index provided. Using default (0)." YELLOW ;;
      ret 0
  end.

(** Lines 99-129: everything before the loop.  [None] is the early
    [return]; otherwise the address and the GPU index the loop runs with. *)
Definition startup (w : world) : M (option (string * Z)) :=
  match nth_error (sys_argv w) 1 with
  | None =>
      print_in_color "Error: Address not provided." RED ;;
      ret None
  | Some addr =>
      let num_devices := device_count w in
      if num_devices =? 0
      then
        print_in_color "No CUDA devices available. exiting." YELLOW ;;
        ret None
      else
        print_in_color "Available CUDA devices:" YELLOW ;;
        for_each (range num_devices)
          (fun i =>
             let device_name := get_device_name w i in
             print_in_color (str_of_int i ++ ": " ++ device_name) YELLOW) ;;
        gpu_index <- select_gpu_index (sys_argv w) num_devices ;;
        print_in_color
          ("Address " ++ addr ++ " started to work on GPU "
           ++ str_of_int gpu_index ++ ".") YELLOW ;;
        ret (Some (addr, gpu_index))
  end.

(** Lines 133-140: the body of the [try]. *)
Definition cycle_body (env : cycle_env) (addr : string) (gpu_index : Z) : M unit :=
  print_in_color "Preparing" YELLOW ;;
  time_sleep 10 ;;
  task_args <- register_particle env addr ;;
  print_in_color ("Address " ++ addr ++ " received the task.") YELLOW ;;
  execute env task_args gpu_index ;;
  print_in_color ("Address " ++ addr ++ " executed the task.") GREEN ;;
  _ <- complete_task env addr ;;
  print_in_color ("Address " ++ addr ++ " completed the task. ") GREEN.

(** Lines 132-142: one turn of [while True]. *)
Definition cycle (env : cycle_env) (addr : string) (gpu_index : Z) : M unit :=
  fun st =>
    try_except (cycle_body env addr gpu_index) Exception
      (fun e => print_in_color ("Error: " ++ exc_str e) RED ;; end_of_except st)
      st.

(** How a run of the process stands: [perform] returned, an exception left
    it, or it is at the top of the loop about to start cycle [next]. *)
Inductive status : Set :=
| Returned
| Uncaught (e : exn)
| Looping (next : nat).

(** [while True], unrolled [fuel] times from cycle [k]. *)
Fixpoint worker_loop (fuel : nat) (envs : nat -> cycle_env) (k : nat)
    (addr : string) (gpu_index : Z) (st : fs_state) : run status :=
  match fuel with
  | O => mk_run (Looping k) [] st
  | S fuel' =>
      let r := cycle (envs k) addr gpu_index st in
      match result r with
      | Ok _ => after (trace r) (worker_loop fuel' envs (S k) addr gpu_index (final r))
      | Raise e => mk_run (Uncaught e) (trace r) (final r)
      end
  end.

Definition perform (fuel : nat) (w : world) (st : fs_state) : run status :=
  let r := startup w st in
  match result r with
  | Ok None => mk_run Returned (trace r) (final r)
  | Ok (Some (addr, gpu_index)) =>
      after (trace r) (worker_loop fuel (cycles w) 0 addr gpu_index (final r))
  | Raise e => mk_run (Uncaught e) (trace r) (final r)
  end.

(** The request [register_particle] sends for [addr], and the one
    [complete_task] sends once it holds the two files. *)
Definition register_request (addr : string) : request :=
  mk_request register_url 10 (JsonPayload (PDict [("address", PStr addr)])).

Definition complete_request (addr : string) (file1 file2 : file_obj) : request :=
  mk_request complete_url 60
    (FilesPayload
       [("file1", FilePart file1); ("file2", FilePart file2);
        ("r", FieldPart None (json_dumps (PDict [("address", PStr addr)]))
                "application/json")]).

(** Lines 92-95: what the answer to the upload [q] makes of the call. *)
Definition upload_outcome (env : cycle_env) (q : request) : outcome pyval :=
  match post_reply env q with
  | Raise e => Raise e
  | Ok resp =>
      if negb (status_code resp =? 200)
      then Raise (mk_exn Exception "Failed to complete task: Try later.")
      else match json resp with
           | Some ack => Ok ack
           | None => Raise (mk_exn JSONDecodeError
                              "Expecting value: line 1 column 1 (char 0)")
           end
  end.

(** What every cycle starts with, and the report of a caught exception. *)
Definition cycle_head : list event :=
  [EvPrint (YELLOW ++ "Preparing" ++ END_COLOR); EvSleep 10].

Definition error_report (e : exn) : event :=
  EvPrint (RED ++ ("Error: " ++ exc_str e) ++ END_COLOR).

(** *** Reading a trace *)

Definition count (p : event -> bool) (t : list event) : nat := length (filter p t).

Definition is_error_report (ev : event) : bool :=
  match ev with
  | EvPrint line => String.prefix (RED ++ "Error: ") line
  | _ => false
  end.

Definition is_post_to (u : string) (ev : event) : bool :=
  match ev with
  | EvPost q => String.eqb (url q) u
  | _ => false
  end.

Definition is_post (ev : event) : bool :=
  match ev with
  | EvPost _ => true
  | _ => false
  end.

Definition is_open (ev : event) : bool :=
  match ev with
  | EvOpen _ _ => true
  | _ => false
  end.

Definition is_close (ev : event) : bool :=
  match ev with
  | EvClose _ => true
  | _ => false
  end.

Definition is_train (ev : event) : bool :=
  match ev with
  | EvTrain _ _ => true
  | _ => false
  end.

(** The three stages of a cycle and the events by which each shows in a
    trace: the request to the acquire endpoint, the training, and the
    opening of the artifacts with the request to the submit endpoint. *)
Inductive stage : Set := Acquire | Execute | Submit.

Definition stage_event (s : stage) (ev : event) : bool :=
  match s with
  | Acquire => is_post_to register_url ev
  | Execute => is_train ev
  | Submit => is_open ev || is_post_to complete_url ev
  end.

(** The first thing each stage does to the outside: one such event is one
    attempt of the stage. *)
Definition stage_entry (s : stage) (ev : event) : bool :=
  match s with
  | Acquire => is_post_to register_url ev
  | Execute => is_train ev
  | Submit =>
      match ev with
      | EvOpen path _ => String.eqb path config_path
      | _ => false
      end
  end.

Definition stage_index (s : stage) : nat :=
  match s with Acquire => 0 | Execute => 1 | Submit => 2 end.

(** The stage of a cycle that raises, with the exception, if one does: the
    three calls of the [try] body run in order from the state [st]. *)
Definition failed_stage (env : cycle_env) (addr : string) (gpu_index : Z)
    (st : fs_state) : option (stage * exn) :=
  let r1 := register_particle env addr st in
  match result r1 with
  | Raise e => Some (Acquire, e)
  | Ok task_args =>
      let r2 := execute env task_args gpu_index (final r1) in
      match result r2 with
      | Raise e => Some (Execute, e)
      | Ok _ =>
          match result (complete_task env addr (final r2)) with
          | Raise e => Some (Submit, e)
          | Ok _ => None
          end
      end
  end.

(** The same outside with the answer of the submit endpoint replaced. *)
Definition with_submit_reply (env : cycle_env) (r : outcome response) : cycle_env :=
  mk_env (fun q => if String.eqb (url q) complete_url then r else post_reply env q)
         (open_error env) (train_error env).

(** The same process in an outside where the submit endpoint answers every
    cycle [i] with status 200 and the JSON body [ack i]. *)
Definition acknowledging (w : world) (ack : nat -> pyval) : world :=
  mk_world (sys_argv w) (device_count w) (get_device_name w)
    (fun i => with_submit_reply (cycles w i) (Ok (mk_response 200 (Some (ack i))))).

(** *** SubmitCompletion read as the specification words it

    The files [complete_task] still holds open when the call is over: none
    after a return (the frame is gone) and none after a failed open (the
    dict display was unwound); both when the call raised with [files]
    bound, the frame being kept by the traceback. *)
Definition artifacts_held (env : cycle_env) (addr : string) (st : fs_state)
  : list file_obj :=
  match open_error env config_path, open_error env training_args_path,
        result (complete_task env addr st) with
  | None, None, Raise _ =>
      [mk_file (next_fd st) config_path; mk_file (S (next_fd st)) training_args_path]
  | _, _, _ => []
  end.

(** "Closes them after the request completes, on all exit paths": when the
    call is over, no file is open that was not open before it. *)
Definition releases_its_files (env : cycle_env) (addr : string) (st : fs_state) : Prop :=
  forall f, In f (open_files (final (complete_task env addr st))) ->
            In f (open_files st).

(** "Opens exactly the two fixed artifact files and sends a single
    multipart request with those two file parts and one JSON address
    part." *)
Definition sends_both_artifacts (env : cycle_env) (addr : string) (st : fs_state) : Prop :=
  let r := complete_task env addr st in
  let file1 := mk_file (next_fd st) config_path in
  let file2 := mk_file (S (next_fd st)) training_args_path in
  filter is_open (trace r) = [EvOpen config_path "rb"; EvOpen training_args_path "rb"]
  /\ filter is_post (trace r) = [EvPost (complete_request addr file1 file2)].

(** *** Sample outsides, for the examples *)

Definition task_sample : pyval :=
  PDict [("model_name", PStr "m"); ("dataset_name", PStr "d");
         ("num_labels", PInt 2); ("num_rows", PInt 10); ("seed", PInt 1)].

Definition ack_sample : pyval := PDict [("status", PStr "ok")].

(** Every request answered with 200, every file present, training fine. *)
Definition env_ok : cycle_env :=
  mk_env (fun q =>
            if String.eqb (url q) register_url
            then Ok (mk_response 200 (Some (PDict [("args", task_sample)])))
            else Ok (mk_response 200 (Some ack_sample)))
         (fun _ => None)
         (fun _ _ => None).

(** The coordinator answers every request with status 500. *)
Definition env_500 : cycle_env :=
  mk_env (fun _ => Ok (mk_response 500 None)) (fun _ => None) (fun _ _ => None).

(** The connection to the coordinator is refused. *)
Definition env_refused : cycle_env :=
  mk_env (fun _ => Raise (mk_exn ConnectionError "Connection refused"))
         (fun _ => None) (fun _ _ => None).

(** The coordinator is fine but the artifact directory is empty. *)
Definition env_no_artifacts : cycle_env :=
  mk_env (post_reply env_ok)
         (fun path => Some (mk_exn FileNotFoundError
                              ("[Errno 2] No such file or directory: '" ++ path ++ "'")))
         (fun _ _ => None).

(** The submit endpoint answers 500, all else is fine. *)
Definition env_submit_500 : cycle_env :=
  with_submit_reply env_ok (Ok (mk_response 500 None)).

(** The training is interrupted from the keyboard. *)
Definition env_interrupted : cycle_env :=
  mk_env (post_reply env_ok) (fun _ => None)
         (fun _ _ => Some (mk_exn KeyboardInterrupt EmptyString)).

(** The training runs out of device memory. *)
Definition env_oom : cycle_env :=
  mk_env (post_reply env_ok) (fun _ => None)
         (fun _ _ => Some (mk_exn RuntimeError "CUDA out of memory.")).

Definition fs0 : fs_state := mk_fs 3 [].

Definition world_sample (argv : list string) (n : Z) : world :=
  mk_world argv n (fun _ => "GPU") (fun _ => env_ok).

(** *** Further readings of a trace *)

Definition is_sleep (ev : event) : bool :=
  match ev with
  | EvSleep _ => true
  | _ => false
  end.

(** The last line of a cycle that went through. *)
Definition completed_line (addr : string) : string :=
  GREEN ++ ("Address " ++ addr ++ " completed the task. ") ++ END_COLOR.

Definition is_completed (addr : string) (ev : event) : bool :=
  match ev with
  | EvPrint line => String.eqb line (completed_line addr)
  | _ => false
  end.

(** The line [perform] prints for device [i]. *)
Definition device_line (w : world) (i : Z) : event :=
  EvPrint (YELLOW ++ (str_of_int i ++ ": " ++ get_device_name w i) ++ END_COLOR).

(** The three things [complete_task] does to the outside, in order. *)
Definition complete_task_steps (addr : string) (st : fs_state) : list event :=
  [EvOpen config_path "rb"; EvOpen training_args_path "rb";
   EvPost (complete_request addr (mk_file (next_fd st) config_path)
             (mk_file (S (next_fd st)) training_args_path))].

(** A request of the worker [addr]: the acquire request, or an upload to
    the submit endpoint with the two artifacts and the address part. *)
Definition request_of (addr : string) (ev : event) : Prop :=
  match ev with
  | EvPost q =>
      q = register_request addr
      \/ exists file1 file2,
           q = complete_request addr file1 file2
           /\ file_name file1 = config_path
           /\ file_name file2 = training_args_path
  | _ => True
  end.

(** A string [json.dumps] writes as it is: printable ASCII with no double
    quote and no backslash. *)
Definition is_plain (c : ascii) : bool :=
  let n := nat_of_ascii c in
  ((32 <=? n) && (n <=? 126) && negb (n =? 34) && negb (n =? 92))%nat.

Fixpoint all_plain (s : string) : bool :=
  match s with
  | EmptyString => true
  | String c rest => is_plain c && all_plain rest
  end.

(** What the [except Exception] clause of the loop, entered from [mark],
    makes of the exception [e] raised after the events [t] in the state
    [st]: the report and a normal end of the cycle, or the exception
    again. *)
Definition caught (e : exn) (t : list event) (mark st : fs_state)
  : run (outcome unit) :=
  if isinstance e Exception
  then mk_run (Ok tt) (t ++ [error_report e]) (finalize mark st)
  else mk_run (Raise e) t st.

(** The progress lines of a cycle. *)
Definition received_line (addr : string) : event :=
  EvPrint (YELLOW ++ ("Address " ++ addr ++ " received the task.") ++ END_COLOR).

Definition executed_line (addr : string) : event :=
  EvPrint (GREEN ++ ("Address " ++ addr ++ " executed the task.") ++ END_COLOR).

Definition training_line : event :=
  EvPrint (BLUE ++ "Starting training..." ++ END_COLOR).

(** An outside whose failures are all errors: whatever [requests.post],
    [open] or the training raise is of class [Exception] or below. *)
Definition raises_only_errors (env : cycle_env) : Prop :=
  (forall q e, post_reply env q = Raise e -> isinstance e Exception = true)
  /\ (forall path e, open_error env path = Some e -> isinstance e Exception = true)
  /\ (forall task_args gpu_index e,
        train_error env task_args gpu_index = Some e -> isinstance e Exception = true).

(* ===================================================================== *)
(** ** Properties *)
(* ===================================================================== *)

(** *** The effect layer *)

(** A goal quantified over the stages, each case closed by computation or
    by the arithmetic of [stage_index]. *)
Ltac by_stage :=
  let s' := fresh "s'" in
  intros s'; destruct s'; cbn [stage_index]; intros;
  first [reflexivity | lia].

Lemma bind_ok {A B} (m : M A) (k : A -> M B) st a :
  result (m st) = Ok a ->
  bind m k st = after (trace (m st)) (k a (final (m st))).
Proof. intros H. unfold bind. rewrite H. reflexivity. Qed.

Lemma bind_raise {A B} (m : M A) (k : A -> M B) st e :
  result (m st) = Raise e ->
  bind m k st = mk_run (Raise e) (trace (m st)) (final (m st)).
Proof. intros H. unfold bind. rewrite H. reflexivity. Qed.

Lemma finalize_app st n extra :
  finalize st (mk_fs n (open_files st ++ extra)) = st.
Proof.
  destruct st as [fd files]. unfold finalize. cbn [next_fd open_files].
  rewrite firstn_app, firstn_all, Nat.sub_diag. cbn [firstn].
  rewrite app_nil_r. reflexivity.
Qed.

Lemma finalize_self st : finalize st st = st.
Proof.
  destruct st as [fd files]. unfold finalize. cbn [next_fd open_files].
  rewrite firstn_all. reflexivity.
Qed.

Lemma count_app p t1 t2 : count p (t1 ++ t2) = (count p t1 + count p t2)%nat.
Proof. unfold count. rewrite filter_app, length_app. reflexivity. Qed.

Lemma count_cons p ev t :
  count p (ev :: t) = ((if p ev then 1 else 0) + count p t)%nat.
Proof. unfold count. simpl. destruct (p ev); reflexivity. Qed.

(** Closing is what takes a file out of the table: a file opened and then
    closed is no longer in it. *)
Lemma py_close_releases env path mode st f :
  result (py_open env path mode st) = Ok f ->
  ~ In f (open_files (final (py_close f (final (py_open env path mode st))))).
Proof.
  unfold py_open. destruct (open_error env path); simpl; [discriminate|].
  intros H. injection H as <-. simpl.
  rewrite filter_In. simpl. rewrite Nat.eqb_refl. simpl. intros [_ H]. discriminate.
Qed.

(** *** AcquireTask: [register_particle] *)

Lemma register_particle_run env addr st :
  trace (register_particle env addr st) = [EvPost (register_request addr)]
  /\ final (register_particle env addr st) = st.
Proof.
  unfold register_particle, bind, requests_post, register_request; simpl.
  destruct (post_reply env _) as [resp|e]; simpl; [|auto].
  destruct (status_code resp =? 200); simpl; [|auto].
  unfold response_json. destruct (json resp); simpl; auto.
Qed.

(** C2.  Whatever response the acquire endpoint gives to [register_particle]:
    with status 200 and a JSON body that holds an [args] entry, the call
    returns exactly that entry; with any other status it raises the
    exception [Failed to init particle: Try later.] and so returns no task. *)
Theorem register_particle_by_status env addr st resp :
  post_reply env (register_request addr) = Ok resp ->
  (forall entries args,
      status_code resp = 200 ->
      json resp = Some (PDict entries) ->
      dict_get entries "args" = Some args ->
      result (register_particle env addr st) = Ok args)
  /\ (status_code resp <> 200 ->
      result (register_particle env addr st)
      = Raise (mk_exn Exception "Failed to init particle: Try later.")
      /\ forall task, result (register_particle env addr st) <> Ok task).
Proof.
  intros Hpost.
  assert (Hrun : result (register_particle env addr st) =
                 if negb (status_code resp =? 200)
                 then Raise (mk_exn Exception "Failed to init particle: Try later.")
                 else match json resp with
                      | Some task => getitem task "args"
                      | None => Raise (mk_exn JSONDecodeError
                                         "Expecting value: line 1 column 1 (char 0)")
                      end).
  { unfold register_particle, bind, requests_post. simpl.
    fold (register_request addr). rewrite Hpost. simpl.
    destruct (status_code resp =? 200); simpl; [|reflexivity].
    unfold response_json. destruct (json resp); reflexivity. }
  split.
  - intros entries args H200 Hjson Hargs.
    rewrite Hrun, H200, Hjson. simpl. rewrite Hargs. reflexivity.
  - intros Hne. apply Z.eqb_neq in Hne. rewrite Hrun, Hne. simpl.
    split; [reflexivity|discriminate].
Qed.

Lemma register_particle_by_status_witness :
  result (register_particle env_ok "0xABC" fs0) = Ok task_sample
  /\ result (register_particle env_500 "0xABC" fs0)
     = Raise (mk_exn Exception "Failed to init particle: Try later.").
Proof.
  split.
  - apply (proj1 (register_particle_by_status env_ok "0xABC" fs0
                    (mk_response 200 (Some (PDict [("args", task_sample)])))
                    eq_refl)
             [("args", task_sample)] task_sample); reflexivity.
  - apply (proj2 (register_particle_by_status env_500 "0xABC" fs0
                    (mk_response 500 None) eq_refl)).
    simpl. discriminate.
Defined.

(** *** The device selector: lines 117-127 of [perform] *)

Lemma for_each_print_run {A} (l : list A) (text : A -> string) color st :
  result (for_each l (fun x => print_in_color (text x) color) st) = Ok tt
  /\ final (for_each l (fun x => print_in_color (text x) color) st) = st
  /\ forall p, (forall line, p (EvPrint line) = false) ->
       count p (trace (for_each l (fun x => print_in_color (text x) color) st)) = O.
Proof.
  induction l as [|x l IH]; simpl.
  - repeat split; auto.
  - unfold bind. simpl. destruct IH as (Hr & Hf & Hc).
    rewrite Hr, Hf. simpl. repeat split; auto.
    intros p Hp. unfold count in *. simpl. rewrite Hp. apply Hc, Hp.
Qed.

(** What [int] takes for a blank around the numeral and what it does not. *)
Example int_of_str_blanks :
  int_of_str (String (ascii_of_nat 160) "1") = Some 1
  /\ int_of_str (String (ascii_of_nat 133) "1") = Some 1
  /\ int_of_str (String (ascii_of_nat 9) "1 ") = Some 1
  /\ int_of_str (String (ascii_of_nat 28) "1") = None
  /\ int_of_str (String (ascii_of_nat 31) "1") = None
  /\ int_of_str "1 2" = None.
Proof. repeat split. Qed.

(** C5.  With [n > 0] devices and a requested index that reads as [i] with
    [0 <= i < n], the selector returns [i], prints nothing and raises
    nothing; [perform] then enters its loop with the given address and [i]. *)
Theorem select_gpu_index_valid argv n arg2 i st :
  0 < n ->
  nth_error argv 2 = Some arg2 ->
  int_of_str arg2 = Some i ->
  0 <= i < n ->
  select_gpu_index argv n st = mk_run (Ok i) [] st
  /\ forall w addr,
       sys_argv w = argv -> device_count w = n -> nth_error argv 1 = Some addr ->
       result (startup w st) = Ok (Some (addr, i)).
Proof.
  intros Hn Harg Hint Hi.
  assert (Hsel : select_gpu_index argv n st = mk_run (Ok i) [] st).
  { unfold select_gpu_index. rewrite Harg.
    unfold try_except, bind, py_int. rewrite Hint. simpl.
    assert (Hlo : (i <? 0) = false) by (apply Z.ltb_ge; lia).
    assert (Hhi : (i >=? n) = false) by (rewrite Z.geb_leb; apply Z.leb_gt; lia).
    rewrite Hlo, Hhi. reflexivity. }
  split; [exact Hsel|].
  intros w addr Hargv Hcount Haddr. unfold startup.
  rewrite Hargv, Haddr, Hcount.
  assert (Hz : (n =? 0) = false) by (apply Z.eqb_neq; lia).
  rewrite Hz.
  destruct (for_each_print_run (range n)
              (fun i0 => str_of_int i0 ++ ": " ++ get_device_name w i0) YELLOW st)
    as (Hr & Hf & _).
  unfold bind at 1. cbn [print_in_color print emit result final trace].
  unfold bind at 1. rewrite Hr, Hf. cbn [result final trace].
  unfold bind at 1. rewrite Hsel. reflexivity.
Qed.

Lemma select_gpu_index_valid_witness :
  select_gpu_index ["execute.py"; "0xABC"; "1"] 2 fs0 = mk_run (Ok 1) [] fs0.
Proof.
  apply (select_gpu_index_valid ["execute.py"; "0xABC"; "1"] 2 "1" 1 fs0);
    [lia | reflexivity | reflexivity | lia].
Defined.

(** C6.  With [n > 0] devices and a requested index that does not read as
    an integer, or reads as one outside [0, n), the selector returns 0,
    prints the line [Error: Invalid GPU index ...] and raises nothing. *)
Theorem select_gpu_index_invalid argv n arg2 st :
  0 < n ->
  nth_error argv 2 = Some arg2 ->
  (forall i, int_of_str arg2 = Some i -> i < 0 \/ n <= i) ->
  select_gpu_index argv n st
  = mk_run (Ok 0)
      [EvPrint (RED ++ ("Error: Invalid GPU index '" ++ arg2 ++ "'. Using default (0).")
                ++ END_COLOR)]
      st.
Proof.
  intros Hn Harg Hbad. unfold select_gpu_index. rewrite Harg.
  unfold try_except, bind, py_int.
  destruct (int_of_str arg2) as [i|] eqn:Hint; simpl.
  - assert (Hout : (i <? 0) || (i >=? n) = true).
    { destruct (Hbad i eq_refl) as [H|H].
      - apply Z.ltb_lt in H. rewrite H. reflexivity.
      - apply orb_true_iff. right. rewrite Z.geb_leb. apply Z.leb_le. exact H. }
    rewrite Hout. reflexivity.
  - reflexivity.
Qed.

Lemma select_gpu_index_invalid_witness :
  result (select_gpu_index ["execute.py"; "0xABC"; "gpu1"] 2 fs0) = Ok 0
  /\ result (select_gpu_index ["execute.py"; "0xABC"; "7"] 2 fs0) = Ok 0
  /\ result (select_gpu_index ["execute.py"; "0xABC"; "-1"] 2 fs0) = Ok 0.
Proof.
  split; [|split].
  - rewrite (select_gpu_index_invalid ["execute.py"; "0xABC"; "gpu1"] 2 "gpu1" fs0);
      [reflexivity | lia | reflexivity | intros i H; vm_compute in H; discriminate].
  - rewrite (select_gpu_index_invalid ["execute.py"; "0xABC"; "7"] 2 "7" fs0);
      [reflexivity | lia | reflexivity
      | intros i H; vm_compute in H; injection H as <-; lia].
  - rewrite (select_gpu_index_invalid ["execute.py"; "0xABC"; "-1"] 2 "-1" fs0);
      [reflexivity | lia | reflexivity
      | intros i H; vm_compute in H; injection H as <-; lia].
Defined.

(** *** Startup: lines 99-109 of [perform] *)

(** C7.  When the address argument is missing, or no CUDA device is
    counted (whatever else the command line holds), [perform] returns after
    one printed line, for any number of loop turns allowed: the trace holds
    no event of the acquire, execute or submit stage. *)
Theorem perform_refuses_to_start fuel w st :
  (length (sys_argv w) < 2)%nat \/ device_count w = 0 ->
  result (perform fuel w st) = Returned
  /\ (exists line, trace (perform fuel w st) = [EvPrint line])
  /\ (forall s, count (stage_event s) (trace (perform fuel w st)) = O)
  /\ final (perform fuel w st) = st.
Proof.
  intros H.
  assert (Hrun : exists line, startup w st = mk_run (Ok None) [EvPrint line] st).
  { unfold startup. destruct (nth_error (sys_argv w) 1) as [addr|] eqn:Haddr.
    - destruct H as [H|H].
      + assert (Hnone : nth_error (sys_argv w) 1 = None)
          by (apply nth_error_None; lia).
        congruence.
      + rewrite H. simpl. eexists. reflexivity.
    - eexists. reflexivity. }
  destruct Hrun as [line Hrun]. unfold perform. rewrite Hrun. simpl.
  repeat split; eauto.
  intros s. destruct s; reflexivity.
Qed.

Lemma perform_refuses_to_start_witness :
  result (perform 5 (world_sample ["execute.py"] 2) fs0) = Returned
  /\ result (perform 5 (world_sample ["execute.py"; "0xABC"; "0"] 0) fs0) = Returned.
Proof.
  split.
  - apply (perform_refuses_to_start 5 (world_sample ["execute.py"] 2) fs0).
    left. simpl. lia.
  - apply (perform_refuses_to_start 5 (world_sample ["execute.py"; "0xABC"; "0"] 0) fs0).
    right. reflexivity.
Defined.

(** *** SubmitCompletion: [complete_task] *)

(** What the answer to the upload makes of the call (lines 93-95). *)
Lemma complete_task_run env addr st :
  let file1 := mk_file (next_fd st) config_path in
  let file2 := mk_file (S (next_fd st)) training_args_path in
  complete_task env addr st =
  match open_error env config_path with
  | Some e => mk_run (Raise e) [EvOpen config_path "rb"] st
  | None =>
      match open_error env training_args_path with
      | Some e =>
          mk_run (Raise e)
                 [EvOpen config_path "rb"; EvOpen training_args_path "rb"] st
      | None =>
          mk_run
            (upload_outcome env (complete_request addr file1 file2))
            [EvOpen config_path "rb"; EvOpen training_args_path "rb";
             EvPost (complete_request addr file1 file2)]
            (match upload_outcome env (complete_request addr file1 file2) with
             | Ok _ => st
             | Raise _ =>
                 mk_fs (S (S (next_fd st))) ((open_files st ++ [file1]) ++ [file2])
             end)
      end
  end.
Proof.
  intros file1 file2.
  unfold complete_task, returning, evaluating, bind, py_open, requests_post,
    after, ret, raise.
  destruct (open_error env config_path) as [e1|];
    cbn [result trace final next_fd open_files].
  { rewrite finalize_self. reflexivity. }
  destruct (open_error env training_args_path) as [e2|];
    cbn [result trace final next_fd open_files app].
  { rewrite finalize_app. reflexivity. }
  fold file1 file2. fold (complete_request addr file1 file2).
  unfold upload_outcome.
  destruct (post_reply env (complete_request addr file1 file2)) as [resp|e];
    cbn [result trace final app]; [|reflexivity].
  destruct (status_code resp =? 200); cbn [negb result trace final app];
    [|reflexivity].
  unfold response_json, ret, raise.
  destruct (json resp); cbn [result trace final app]; [|reflexivity].
  rewrite <- app_assoc, finalize_app. reflexivity.
Qed.

(** The files left open when the call is over: none after a return, none
    after a failed second open, both after a rejected upload. *)
Example complete_task_files_when_over :
  final (complete_task env_ok "0xABC" fs0) = fs0
  /\ final (complete_task
              (mk_env (post_reply env_ok)
                      (fun path => if String.eqb path config_path then None
                                   else Some (mk_exn FileNotFoundError path))
                      (fun _ _ => None))
              "0xABC" fs0) = fs0
  /\ final (complete_task env_submit_500 "0xABC" fs0)
     = mk_fs 5 [mk_file 3 config_path; mk_file 4 training_args_path].
Proof. split; [|split]; reflexivity. Qed.


(** The claim C4 fails where an artifact is missing: nothing is opened and
    no request is sent. *)
Lemma complete_task_without_artifacts_sends_nothing :
  ~ sends_both_artifacts env_no_artifacts "0xABC" fs0.
Proof.
  intros (Hopen & _). vm_compute in Hopen. discriminate.
Qed.

(** C4, amended.  Every call of [complete_task] in which the two fixed
    paths open does open exactly those two, the configuration file and then
    the training-arguments file, and sends one request, to the completion
    endpoint, whose parts are [file1], [file2] and the JSON address part
    [r], in this order. *)
Theorem complete_task_sends_both_artifacts env addr st :
  open_error env config_path = None ->
  open_error env training_args_path = None ->
  sends_both_artifacts env addr st.
Proof.
  intros H1 H2. unfold sends_both_artifacts.
  rewrite complete_task_run, H1, H2. cbn [trace].
  split; reflexivity.
Qed.

Lemma complete_task_sends_both_artifacts_witness :
  sends_both_artifacts env_ok "0xABC" fs0.
Proof.
  apply (complete_task_sends_both_artifacts env_ok "0xABC" fs0); reflexivity.
Defined.

(** C8.  When either of the two fixed paths fails to open, [complete_task]
    raises and its trace holds no request: the upload is sent only after
    both files are open. *)
Theorem complete_task_open_failure env addr st :
  open_error env config_path <> None \/ open_error env training_args_path <> None ->
  (exists e, result (complete_task env addr st) = Raise e)
  /\ count is_post (trace (complete_task env addr st)) = O.
Proof.
  intros H. rewrite complete_task_run.
  destruct (open_error env config_path) as [e1|].
  - split; [exists e1|]; reflexivity.
  - destruct (open_error env training_args_path) as [e2|].
    + split; [exists e2|]; reflexivity.
    + destruct H as [H|H]; congruence.
Qed.

Lemma complete_task_open_failure_witness :
  count is_post (trace (complete_task env_no_artifacts "0xABC" fs0)) = O.
Proof.
  apply (complete_task_open_failure env_no_artifacts "0xABC" fs0).
  left. simpl. discriminate.
Defined.

(** *** The worker loop: lines 131-142 of [perform] *)

Lemma execute_run env task_args gpu_index st :
  execute env task_args gpu_index st =
  mk_run (match train_error env task_args gpu_index with
          | None => Ok tt
          | Some e => Raise e
          end)
         [EvPrint (BLUE ++ "Starting training..." ++ END_COLOR);
          EvTrain task_args gpu_index]
         st.
Proof. reflexivity. Qed.

Lemma bind_emit {B} ev (k : unit -> M B) st :
  bind (emit ev) k st = after [ev] (k tt st).
Proof. reflexivity. Qed.

Lemma after_after {A} t1 t2 (r : run A) :
  after t1 (after t2 r) = after (t1 ++ t2) r.
Proof. unfold after. simpl. rewrite app_assoc. reflexivity. Qed.

Lemma after_mk_run {A} t (x : A) t' st :
  after t (mk_run x t' st) = mk_run x (t ++ t') st.
Proof. reflexivity. Qed.

(** The [try] body, stage by stage. *)
Lemma cycle_body_run env addr gpu_index st :
  cycle_body env addr gpu_index st =
  let r1 := register_particle env addr st in
  match result r1 with
  | Raise e => mk_run (Raise e) (cycle_head ++ trace r1) st
  | Ok task_args =>
      let r2 := execute env task_args gpu_index st in
      let t2 := (cycle_head ++ trace r1
                 ++ EvPrint (YELLOW ++ ("Address " ++ addr ++ " received the task.")
                             ++ END_COLOR) :: trace r2)%list in
      match result r2 with
      | Raise e => mk_run (Raise e) t2 st
      | Ok _ =>
          let r3 := complete_task env addr st in
          let t3 := (t2 ++ EvPrint (GREEN ++ ("Address " ++ addr ++ " executed the task.")
                                    ++ END_COLOR) :: trace r3)%list in
          match result r3 with
          | Raise e => mk_run (Raise e) t3 (final r3)
          | Ok _ =>
              mk_run (Ok tt)
                (t3 ++ [EvPrint (GREEN ++ ("Address " ++ addr ++ " completed the task. ")
                                 ++ END_COLOR)])
                (final r3)
          end
      end
  end.
Proof.
  destruct (register_particle_run env addr st) as [Ht1 Hf1].
  unfold cycle_body, cycle_head, print_in_color, print, time_sleep.
  rewrite !bind_emit, after_after. cbv zeta.
  destruct (result (register_particle env addr st)) as [task_args|e] eqn:Hr1.
  2:{ rewrite (bind_raise _ _ _ _ Hr1), Hf1. reflexivity. }
  rewrite (bind_ok _ _ _ _ Hr1), Hf1, bind_emit, !after_after.
  pose proof (execute_run env task_args gpu_index st) as Hr2.
  destruct (train_error env task_args gpu_index) as [e|].
  { rewrite bind_raise with (e := e) by (rewrite Hr2; reflexivity).
    rewrite Hr2. cbn [result trace final].
    rewrite after_mk_run, <- !app_assoc. reflexivity. }
  rewrite bind_ok with (a := tt) by (rewrite Hr2; reflexivity).
  rewrite Hr2. cbn [result trace final].
  rewrite bind_emit, !after_after.
  destruct (result (complete_task env addr st)) as [ack|e] eqn:Hr3.
  - rewrite (bind_ok _ _ _ _ Hr3). unfold emit, after. cbn [result trace final].
    f_equal. rewrite <- !app_assoc. reflexivity.
  - rewrite (bind_raise _ _ _ _ Hr3). rewrite after_mk_run.
    f_equal. rewrite <- !app_assoc. reflexivity.
Qed.

Lemma complete_task_trace env addr st :
  let t := trace (complete_task env addr st) in
  count is_error_report t = O
  /\ count (stage_event Acquire) t = O
  /\ count (stage_event Execute) t = O
  /\ count (stage_entry Submit) t = 1%nat.
Proof.
  cbv zeta. rewrite complete_task_run.
  destruct (open_error env config_path);
    [|destruct (open_error env training_args_path)];
    cbn [trace]; repeat split; reflexivity.
Qed.

Lemma error_report_is_error_report e : is_error_report (error_report e) = true.
Proof.
  unfold is_error_report, error_report. cbn.
  destruct (exc_str e ++ _); reflexivity.
Qed.

Lemma count_error_report e : count is_error_report [error_report e] = 1%nat.
Proof. rewrite count_cons, error_report_is_error_report. reflexivity. Qed.

(** One turn of the loop, by what its [try] body did. *)
Lemma cycle_run env addr gpu_index st :
  cycle env addr gpu_index st =
  let r := cycle_body env addr gpu_index st in
  match result r with
  | Ok _ => r
  | Raise e =>
      if isinstance e Exception
      then mk_run (Ok tt) (trace r ++ [error_report e]) (finalize st (final r))
      else r
  end.
Proof.
  unfold cycle, try_except. cbv zeta.
  destruct (result (cycle_body env addr gpu_index st)) as [u|e]; [reflexivity|].
  destruct (isinstance e Exception); reflexivity.
Qed.

Lemma cycle_starts_preparing env addr gpu_index st :
  exists rest, trace (cycle env addr gpu_index st) = (cycle_head ++ rest)%list.
Proof.
  rewrite cycle_run, cycle_body_run. cbv zeta.
  destruct (result (register_particle env addr st)) as [task_args|e].
  - destruct (result (execute env task_args gpu_index st)).
    + destruct (result (complete_task env addr st)) as [?|e]; cbn [result trace].
      * rewrite <- !app_assoc. eexists. reflexivity.
      * destruct (isinstance e Exception); cbn [trace];
          rewrite <- ?app_assoc; eexists; reflexivity.
    + cbn [result]. destruct (isinstance e Exception); cbn [trace];
        rewrite <- ?app_assoc; eexists; reflexivity.
  - cbn [result]. destruct (isinstance e Exception); cbn [trace];
      rewrite <- ?app_assoc; eexists; reflexivity.
Qed.

Lemma worker_loop_continues fuel envs k addr gpu_index st :
  result (cycle (envs k) addr gpu_index st) = Ok tt ->
  worker_loop (S fuel) envs k addr gpu_index st =
  after (trace (cycle (envs k) addr gpu_index st))
        (worker_loop fuel envs (S k) addr gpu_index
           (final (cycle (envs k) addr gpu_index st))).
Proof. intros H. cbn [worker_loop]. rewrite H. reflexivity. Qed.

Lemma worker_loop_stops fuel envs k addr gpu_index st e :
  result (cycle (envs k) addr gpu_index st) = Raise e ->
  worker_loop (S fuel) envs k addr gpu_index st =
  mk_run (Uncaught e) (trace (cycle (envs k) addr gpu_index st))
         (final (cycle (envs k) addr gpu_index st)).
Proof. intros H. cbn [worker_loop]. rewrite H. reflexivity. Qed.

(** What a failing stage leaves in the trace of the [try] body: the body
    raises the stage's exception; the stages up to the failing one were
    entered once each and the later ones left no event at all; nothing was
    reported yet. *)
Lemma cycle_body_failure env addr gpu_index st s e :
  failed_stage env addr gpu_index st = Some (s, e) ->
  let r := cycle_body env addr gpu_index st in
  result r = Raise e
  /\ count is_error_report (trace r) = O
  /\ (forall s', count (stage_entry s') (trace r)
                 = if (stage_index s' <=? stage_index s)%nat then 1%nat else O)
  /\ (forall s', (stage_index s < stage_index s')%nat ->
                 count (stage_event s') (trace r) = O).
Proof.
  unfold failed_stage. cbv zeta. rewrite cycle_body_run. cbv zeta.
  destruct (register_particle_run env addr st) as [Ht1 Hf1].
  rewrite Hf1, Ht1.
  destruct (result (register_particle env addr st)) as [task_args|e1].
  2:{ intros H. injection H as <- <-. cbn [result trace].
      repeat split; try reflexivity; by_stage. }
  rewrite execute_run. cbn [result trace final].
  destruct (train_error env task_args gpu_index) as [e2|].
  { intros H. injection H as <- <-. cbn [result trace].
    repeat split; try reflexivity; by_stage. }
  destruct (complete_task_trace env addr st) as (Hc1 & Hc2 & Hc3 & Hc4).
  destruct (result (complete_task env addr st)) as [ack|e3]; [discriminate|].
  intros H. injection H as <- <-. cbn [result trace].
  repeat split.
  - rewrite !count_app, !count_cons, Hc1. reflexivity.
  - intros s'. rewrite !count_app, !count_cons.
    destruct s'; cbn [stage_index Nat.leb];
      [ change (stage_entry Acquire) with (stage_event Acquire); rewrite Hc2
      | change (stage_entry Execute) with (stage_event Execute); rewrite Hc3
      | rewrite Hc4 ]; reflexivity.
  - by_stage.
Qed.

(** Once the call is over and its exception, if any, dropped, no file it
    opened is open. *)
Lemma complete_task_finalize env addr st :
  finalize st (final (complete_task env addr st)) = st.
Proof.
  rewrite complete_task_run.
  destruct (open_error env config_path);
    [|destruct (open_error env training_args_path)]; cbn [final].
  - apply finalize_self.
  - apply finalize_self.
  - destruct (upload_outcome env _).
    + apply finalize_self.
    + rewrite <- app_assoc. apply finalize_app.
Qed.

Lemma complete_task_ok_restores env addr st ack :
  result (complete_task env addr st) = Ok ack ->
  final (complete_task env addr st) = st.
Proof.
  rewrite complete_task_run.
  destruct (open_error env config_path); [discriminate|].
  destruct (open_error env training_args_path); [discriminate|].
  cbn [result final]. destruct (upload_outcome env _); [reflexivity|discriminate].
Qed.

Lemma cycle_restores_files env addr gpu_index st :
  result (cycle env addr gpu_index st) = Ok tt ->
  final (cycle env addr gpu_index st) = st.
Proof.
  rewrite cycle_run, cycle_body_run. cbv zeta.
  destruct (result (register_particle env addr st)) as [task_args|e].
  2:{ cbn [result final]. destruct (isinstance e Exception); cbn [result final];
        [intros _; apply finalize_self|discriminate]. }
  destruct (result (execute env task_args gpu_index st)) as [u|e].
  2:{ cbn [result final]. destruct (isinstance e Exception); cbn [result final];
        [intros _; apply finalize_self|discriminate]. }
  destruct (result (complete_task env addr st)) as [ack|e] eqn:Hr3.
  - cbn [result final]. intros _. exact (complete_task_ok_restores _ _ _ _ Hr3).
  - cbn [result final]. destruct (isinstance e Exception); cbn [result final];
      [intros _; apply complete_task_finalize|discriminate].
Qed.



(** C1.  In any cycle, when the acquire, the execute or the submit stage
    fails, that is, raises an exception of class [Exception] or below: the
    [try] is left at once, so each stage up to the failing one was entered
    once and no later stage left any event (after a failed acquire neither
    the executor nor the submit endpoint is reached); exactly one error
    report is printed, last in the cycle; the cycle ends normally, so the
    loop goes on with the next turn, which starts with the [Preparing]
    line and the wait, and the process does not end there. *)
Theorem cycle_isolates_failure env addr gpu_index st s e :
  failed_stage env addr gpu_index st = Some (s, e) ->
  isinstance e Exception = true ->
  let r := cycle env addr gpu_index st in
  result r = Ok tt
  /\ count is_error_report (trace r) = 1%nat
  /\ (exists before, trace r = (before ++ [error_report e])%list)
  /\ (forall s', count (stage_entry s') (trace r)
                 = if (stage_index s' <=? stage_index s)%nat then 1%nat else O)
  /\ (forall s', (stage_index s < stage_index s')%nat ->
                 count (stage_event s') (trace r) = O)
  /\ (forall fuel envs k, envs k = env ->
        worker_loop (S fuel) envs k addr gpu_index st
        = after (trace r) (worker_loop fuel envs (S k) addr gpu_index (final r))
        /\ exists rest,
             trace (worker_loop (S (S fuel)) envs k addr gpu_index st)
             = (trace r ++ cycle_head ++ rest)%list).
Proof.
  intros Hfail Hexc. cbv zeta.
  destruct (cycle_body_failure env addr gpu_index st s e Hfail)
    as (Hres & Herr & Hentry & Hlater).
  assert (Hcycle : cycle env addr gpu_index st
                   = mk_run (Ok tt)
                       (trace (cycle_body env addr gpu_index st) ++ [error_report e])
                       (finalize st (final (cycle_body env addr gpu_index st)))).
  { rewrite cycle_run. cbv zeta. rewrite Hres, Hexc. reflexivity. }
  rewrite Hcycle. cbn [result trace final].
  split; [reflexivity|].
  split; [rewrite count_app, Herr, count_error_report; reflexivity|].
  split; [eexists; reflexivity|].
  split.
  { intros s'. rewrite count_app, Hentry.
    destruct s'; cbn [count filter stage_entry error_report is_post_to is_train length];
      lia. }
  split.
  { intros s' Hs. rewrite count_app, (Hlater s' Hs). destruct s'; reflexivity. }
  intros fuel envs k Hk.
  assert (Hstep : forall n,
             worker_loop (S n) envs k addr gpu_index st
             = after (trace (cycle_body env addr gpu_index st) ++ [error_report e])
                 (worker_loop n envs (S k) addr gpu_index
                    (finalize st (final (cycle_body env addr gpu_index st))))).
  { intros n. rewrite worker_loop_continues; rewrite Hk, Hcycle; reflexivity. }
  split; [apply Hstep|].
  rewrite Hstep. cbn [after trace].
  destruct (cycle_starts_preparing (envs (S k)) addr gpu_index
              (finalize st (final (cycle_body env addr gpu_index st))))
    as [rest Hrest].
  cbn [worker_loop].
  destruct (result (cycle (envs (S k)) addr gpu_index _)); cbn [after trace];
    rewrite Hrest, <- ?(app_assoc cycle_head rest); eexists; reflexivity.
Qed.

Lemma cycle_isolates_failure_witness :
  count is_error_report (trace (cycle env_500 "0xABC" 0 fs0)) = 1%nat
  /\ count is_error_report (trace (cycle env_oom "0xABC" 0 fs0)) = 1%nat
  /\ count is_error_report (trace (cycle env_submit_500 "0xABC" 0 fs0)) = 1%nat.
Proof.
  split; [|split].
  - apply (cycle_isolates_failure env_500 "0xABC" 0 fs0 Acquire
             (mk_exn Exception "Failed to init particle: Try later."));
      reflexivity.
  - apply (cycle_isolates_failure env_oom "0xABC" 0 fs0 Execute
             (mk_exn RuntimeError "CUDA out of memory."));
      reflexivity.
  - apply (cycle_isolates_failure env_submit_500 "0xABC" 0 fs0 Submit
             (mk_exn Exception "Failed to complete task: Try later."));
      reflexivity.
Defined.

(** C10.  The [except Exception] of the loop does not catch an exception
    whose class is not below [Exception] (a [KeyboardInterrupt], a
    [SystemExit]): when a stage raises one, the cycle raises it too, with
    no error report and no event of a later stage, the loop stops there,
    and [perform] ends with that exception uncaught. *)
Theorem cycle_lets_base_exception_through env addr gpu_index st s e :
  failed_stage env addr gpu_index st = Some (s, e) ->
  isinstance e Exception = false ->
  let r := cycle env addr gpu_index st in
  result r = Raise e
  /\ count is_error_report (trace r) = O
  /\ (forall s', (stage_index s < stage_index s')%nat ->
                 count (stage_event s') (trace r) = O)
  /\ (forall fuel envs k, envs k = env ->
        worker_loop (S fuel) envs k addr gpu_index st
        = mk_run (Uncaught e) (trace r) (final r))
  /\ (forall fuel w st0, result (startup w st0) = Ok (Some (addr, gpu_index)) ->
        final (startup w st0) = st -> cycles w O = env ->
        result (perform (S fuel) w st0) = Uncaught e).
Proof.
  intros Hfail Hexc. cbv zeta.
  destruct (cycle_body_failure env addr gpu_index st s e Hfail)
    as (Hres & Herr & _ & Hlater).
  assert (Hcycle : cycle env addr gpu_index st = cycle_body env addr gpu_index st).
  { rewrite cycle_run. cbv zeta. rewrite Hres, Hexc. reflexivity. }
  rewrite Hcycle.
  repeat split; try assumption.
  - intros fuel envs k Hk. rewrite worker_loop_stops with (e := e);
      rewrite Hk, Hcycle; auto.
  - intros fuel w st0 Hstart Hfinal Henv. unfold perform.
    rewrite Hstart, Hfinal. cbn [after result].
    rewrite worker_loop_stops with (e := e); [reflexivity|].
    rewrite Henv, Hcycle. exact Hres.
Qed.

Lemma cycle_lets_base_exception_through_witness :
  result (cycle env_interrupted "0xABC" 0 fs0)
  = Raise (mk_exn KeyboardInterrupt EmptyString).
Proof.
  apply (cycle_lets_base_exception_through env_interrupted "0xABC" 0 fs0 Execute
           (mk_exn KeyboardInterrupt EmptyString)); reflexivity.
Defined.

(** *** The acknowledgement of the submit endpoint *)

Lemma register_particle_with_submit_reply env reply addr st :
  register_particle (with_submit_reply env reply) addr st
  = register_particle env addr st.
Proof. reflexivity. Qed.

Lemma execute_with_submit_reply env reply task_args gpu_index st :
  execute (with_submit_reply env reply) task_args gpu_index st
  = execute env task_args gpu_index st.
Proof. reflexivity. Qed.

(** With status 200 and a JSON body, [complete_task] returns the body;
    the body shows nowhere else. *)
Lemma complete_task_acknowledged env ack addr st :
  let r := complete_task
             (with_submit_reply env (Ok (mk_response 200 (Some ack)))) addr st in
  let r0 := complete_task
              (with_submit_reply env (Ok (mk_response 200 (Some PNone)))) addr st in
  trace r = trace r0 /\ final r = final r0
  /\ (result r = Ok ack /\ result r0 = Ok PNone
      \/ exists e, result r = Raise e /\ result r0 = Raise e).
Proof.
  cbv zeta. rewrite !complete_task_run.
  cbn [with_submit_reply open_error post_reply].
  destruct (open_error env config_path) as [e1|];
    [|destruct (open_error env training_args_path) as [e2|]];
    cbn [result trace final]; repeat split; eauto.
Qed.

Lemma cycle_ignores_acknowledgement env ack1 ack2 addr gpu_index st :
  cycle (with_submit_reply env (Ok (mk_response 200 (Some ack1)))) addr gpu_index st
  = cycle (with_submit_reply env (Ok (mk_response 200 (Some ack2)))) addr gpu_index st.
Proof.
  rewrite !cycle_run, !cycle_body_run. cbv zeta.
  rewrite !register_particle_with_submit_reply.
  destruct (result (register_particle env addr st)) as [task_args|e]; [|reflexivity].
  rewrite !execute_with_submit_reply.
  destruct (result (execute env task_args gpu_index st)); [|reflexivity].
  destruct (complete_task_acknowledged env ack1 addr st) as (Ht1 & Hf1 & H1).
  destruct (complete_task_acknowledged env ack2 addr st) as (Ht2 & Hf2 & H2).
  rewrite Ht1, Ht2, Hf1, Hf2.
  destruct H1 as [[Hr1 Hz1]|[e1 [Hr1 Hz1]]], H2 as [[Hr2 Hz2]|[e2 [Hr2 Hz2]]];
    rewrite Hr1, Hr2.
  - reflexivity.
  - rewrite Hz1 in Hz2. discriminate.
  - rewrite Hz1 in Hz2. discriminate.
  - assert (e1 = e2) by congruence. subst. reflexivity.
Qed.

(** C9.  Two runs of the loop that differ only in the JSON bodies the
    submit endpoint sends with status 200 are the same run: the same status
    of the process, the same events in the same order, the same files
    open.  What [complete_task] returns is dropped by the loop. *)
Theorem perform_ignores_acknowledgement fuel w (ack1 ack2 : nat -> pyval) st :
  perform fuel (acknowledging w ack1) st = perform fuel (acknowledging w ack2) st
  /\ forall k addr gpu_index st',
       worker_loop fuel (cycles (acknowledging w ack1)) k addr gpu_index st'
       = worker_loop fuel (cycles (acknowledging w ack2)) k addr gpu_index st'.
Proof.
  assert (Hloop : forall n k addr gpu_index st',
             worker_loop n (cycles (acknowledging w ack1)) k addr gpu_index st'
             = worker_loop n (cycles (acknowledging w ack2)) k addr gpu_index st').
  { induction n as [|n IH]; intros k addr gpu_index st'; [reflexivity|].
    cbn [worker_loop acknowledging cycles].
    rewrite (cycle_ignores_acknowledgement (cycles w k) (ack1 k) (ack2 k)).
    destruct (result (cycle _ addr gpu_index st')); [|reflexivity].
    f_equal. apply IH. }
  split; [|apply Hloop].
  unfold perform.
  change (startup (acknowledging w ack1) st) with (startup w st).
  change (startup (acknowledging w ack2) st) with (startup w st).
  destruct (result (startup w st)) as [[[addr gpu_index]|]|e]; try reflexivity.
  rewrite Hloop. reflexivity.
Qed.

(** The status and the shape of the body do count: with a body that is not
    JSON, or a status other than 200, the same cycle ends in an error
    report. *)
Example cycle_with_unreadable_acknowledgement :
  count is_error_report
    (trace (cycle (with_submit_reply env_ok (Ok (mk_response 200 None))) "0xABC" 0 fs0))
  = 1%nat
  /\ count is_error_report (trace (cycle env_submit_500 "0xABC" 0 fs0)) = 1%nat
  /\ count is_error_report (trace (cycle env_ok "0xABC" 0 fs0)) = O.
Proof. split; [|split]; reflexivity. Qed.

(** The scenario of the specification: address [0xABC], one device, the
    task handed out, training fine, the upload acknowledged.  One turn of
    the loop prints the three progress lines once each, and the process is
    at the top of the loop for the next turn. *)
Example perform_one_good_cycle :
  let r := perform 1 (world_sample ["execute.py"; "0xABC"] 1) fs0 in
  result r = Looping 1
  /\ filter (fun ev => negb (is_post ev)) (skipn 4 (trace r))
     = (cycle_head ++
        [EvPrint (YELLOW ++ "Address 0xABC received the task." ++ END_COLOR);
         EvPrint (BLUE ++ "Starting training..." ++ END_COLOR);
         EvTrain task_sample 0;
         EvPrint (GREEN ++ "Address 0xABC executed the task." ++ END_COLOR);
         EvOpen config_path "rb";
         EvOpen training_args_path "rb";
         EvPrint (GREEN ++ "Address 0xABC completed the task. " ++ END_COLOR)])%list
  /\ filter is_post (trace r)
     = [EvPost (register_request "0xABC");
        EvPost (complete_request "0xABC" (mk_file 3 config_path)
                  (mk_file 4 training_args_path))].
Proof. split; [|split]; reflexivity. Qed.

(* ===================================================================== *)
(** ** Further properties of the program *)
(* ===================================================================== *)

(** *** [register_particle] *)

(** A task comes out of [register_particle] only from a response with
    status 200 whose JSON body is an object with an [args] entry, and it is
    that entry. *)
Theorem register_particle_ok_inv env addr st task_args :
  result (register_particle env addr st) = Ok task_args ->
  exists resp entries,
    post_reply env (register_request addr) = Ok resp
    /\ status_code resp = 200
    /\ json resp = Some (PDict entries)
    /\ dict_get entries "args" = Some task_args.
Proof.
  unfold register_particle, bind, requests_post. cbn [result trace final].
  fold (register_request addr).
  destruct (post_reply env (register_request addr)) as [resp|e]; [|discriminate].
  cbn [result trace final after].
  destruct (status_code resp =? 200) eqn:Hs; cbn [negb]; [|discriminate].
  apply Z.eqb_eq in Hs. unfold response_json.
  destruct (json resp) as [task|] eqn:Hjson; [|discriminate].
  unfold lift, ret, after. cbn [result trace final].
  destruct task as [| | | | |items|entries]; cbn [getitem]; try discriminate.
  destruct (dict_get entries "args") as [x|] eqn:Hget; [|discriminate].
  intros H. injection H as <-. exists resp, entries. auto.
Qed.

Lemma register_particle_ok_inv_witness :
  exists resp entries,
    post_reply env_ok (register_request "0xABC") = Ok resp
    /\ status_code resp = 200
    /\ json resp = Some (PDict entries)
    /\ dict_get entries "args" = Some task_sample.
Proof.
  apply (register_particle_ok_inv env_ok "0xABC" fs0 task_sample). reflexivity.
Defined.

(** A 200 response without a usable task is not papered over: a body that
    is not JSON raises [JSONDecodeError], a JSON value that is not an
    object raises [TypeError], an object without [args] raises [KeyError];
    each is an [Exception], so the loop's handler gets it. *)
Theorem register_particle_malformed env addr st resp :
  post_reply env (register_request addr) = Ok resp ->
  status_code resp = 200 ->
  (forall entries, json resp = Some (PDict entries) -> dict_get entries "args" = None) ->
  exists e,
    result (register_particle env addr st) = Raise e
    /\ isinstance e Exception = true
    /\ exc_type e = match json resp with
                    | None => JSONDecodeError
                    | Some (PDict _) => KeyError
                    | Some _ => TypeError
                    end.
Proof.
  intros Hpost Hs Hbad.
  unfold register_particle, bind, requests_post. cbn [result trace final].
  fold (register_request addr). rewrite Hpost. cbn [result trace final after].
  rewrite Hs. cbn [Z.eqb Pos.eqb negb]. unfold response_json.
  destruct (json resp) as [task|].
  - unfold lift, ret, after. cbn [result trace final].
    destruct task as [| | | | |items|entries]; cbn [getitem];
      try (eexists; repeat split; reflexivity).
    rewrite (Hbad entries eq_refl). eexists; repeat split; reflexivity.
  - eexists; repeat split; reflexivity.
Qed.

Lemma register_particle_malformed_witness :
  exists e,
    result (register_particle
              (mk_env (fun _ => Ok (mk_response 200 (Some (PDict [("task", PNone)]))))
                      (fun _ => None) (fun _ _ => None))
              "0xABC" fs0) = Raise e
    /\ isinstance e Exception = true
    /\ exc_type e = KeyError.
Proof.
  apply (register_particle_malformed _ "0xABC" fs0
           (mk_response 200 (Some (PDict [("task", PNone)])))).
  - reflexivity.
  - reflexivity.
  - intros entries H. injection H as <-. reflexivity.
Defined.

(** When [requests.post] itself raises (a timeout, a refused connection),
    [register_particle] raises that very exception, after the one request,
    with no file touched. *)
Theorem register_particle_transport_failure env addr st e :
  post_reply env (register_request addr) = Raise e ->
  register_particle env addr st = mk_run (Raise e) [EvPost (register_request addr)] st.
Proof.
  intros H. unfold register_particle, bind, requests_post. cbn [result trace final].
  fold (register_request addr). rewrite H. reflexivity.
Qed.

Lemma register_particle_transport_failure_witness :
  result (register_particle env_refused "0xABC" fs0)
  = Raise (mk_exn ConnectionError "Connection refused").
Proof.
  rewrite (register_particle_transport_failure env_refused "0xABC" fs0
             (mk_exn ConnectionError "Connection refused") eq_refl).
  reflexivity.
Defined.

(** Whatever the coordinator answers, [register_particle] sends one
    request and no more: a POST to [/register_particle] of the node, with
    timeout 10 and the JSON body [{"address": addr}]; it opens and closes no
    file. *)
Theorem register_particle_single_request env addr st :
  exists q,
    trace (register_particle env addr st) = [EvPost q]
    /\ url q = "https://mainnet.nimble.technology:443/register_particle"
    /\ timeout q = 10
    /\ body q = JsonPayload (PDict [("address", PStr addr)])
    /\ final (register_particle env addr st) = st.
Proof.
  exists (register_request addr).
  destruct (register_particle_run env addr st) as [Ht Hf].
  repeat split; assumption.
Qed.

(** *** [complete_task] *)

(** [complete_task] returns an acknowledgement exactly when both artifacts
    opened and the upload was answered with status 200 and a JSON body; the
    acknowledgement is that body. *)
Theorem complete_task_ok_iff env addr st ack :
  result (complete_task env addr st) = Ok ack
  <-> (open_error env config_path = None
       /\ open_error env training_args_path = None
       /\ exists resp,
            post_reply env
              (complete_request addr (mk_file (next_fd st) config_path)
                 (mk_file (S (next_fd st)) training_args_path)) = Ok resp
            /\ status_code resp = 200
            /\ json resp = Some ack).
Proof.
  rewrite complete_task_run.
  destruct (open_error env config_path) as [e1|]; cbn [result].
  { split; [discriminate|intros (H & _); discriminate]. }
  destruct (open_error env training_args_path) as [e2|]; cbn [result].
  { split; [discriminate|intros (_ & H & _); discriminate]. }
  unfold upload_outcome.
  destruct (post_reply env _) as [resp|e].
  2:{ split; [discriminate|intros (_ & _ & r & H & _); discriminate]. }
  destruct (status_code resp =? 200) eqn:Hs; cbn [negb].
  - apply Z.eqb_eq in Hs. destruct (json resp) as [v|] eqn:Hj.
    + split.
      * intros H. injection H as <-. repeat split. exists resp. auto.
      * intros (_ & _ & r & Hr & _ & Hjr). injection Hr as <-.
        rewrite Hj in Hjr. injection Hjr as <-. reflexivity.
    + split; [discriminate|].
      intros (_ & _ & r & Hr & _ & Hjr). injection Hr as <-. congruence.
  - apply Z.eqb_neq in Hs. split; [discriminate|].
    intros (_ & _ & r & Hr & H200 & _). injection Hr as <-. contradiction.
Qed.

Lemma complete_task_ok_iff_witness :
  result (complete_task env_ok "0xABC" fs0) = Ok ack_sample.
Proof.
  apply (proj2 (complete_task_ok_iff env_ok "0xABC" fs0 ack_sample)).
  repeat split. exists (mk_response 200 (Some ack_sample)). repeat split.
Defined.

(** With both artifacts open, an answer whose status is not 200 makes
    [complete_task] raise [Failed to complete task: Try later.]  The upload
    was sent once and is not repeated, and the two files stay open. *)
Theorem complete_task_rejected env addr st resp :
  open_error env config_path = None ->
  open_error env training_args_path = None ->
  post_reply env
    (complete_request addr (mk_file (next_fd st) config_path)
       (mk_file (S (next_fd st)) training_args_path)) = Ok resp ->
  status_code resp <> 200 ->
  complete_task env addr st
  = mk_run (Raise (mk_exn Exception "Failed to complete task: Try later."))
      (complete_task_steps addr st)
      (mk_fs (S (S (next_fd st)))
         (open_files st ++ [mk_file (next_fd st) config_path;
                            mk_file (S (next_fd st)) training_args_path])).
Proof.
  intros H1 H2 Hpost Hs. apply Z.eqb_neq in Hs.
  rewrite complete_task_run, H1, H2. unfold upload_outcome.
  rewrite Hpost, Hs. cbn [negb].
  rewrite <- app_assoc. reflexivity.
Qed.

Lemma complete_task_rejected_witness :
  result (complete_task env_submit_500 "0xABC" fs0)
  = Raise (mk_exn Exception "Failed to complete task: Try later.").
Proof.
  rewrite (complete_task_rejected env_submit_500 "0xABC" fs0 (mk_response 500 None));
    [reflexivity | reflexivity | reflexivity | reflexivity | simpl; discriminate].
Defined.

(** [complete_task] does its three steps in one order and stops at the
    first that fails: open the configuration file, open the training
    arguments, send the upload.  Its trace is a non-empty prefix of these
    three, so it opens no other path, sends at most one request, and never
    sends before both opens. *)
Theorem complete_task_steps_in_order env addr st :
  exists n, (1 <= n <= 3)%nat
    /\ trace (complete_task env addr st) = firstn n (complete_task_steps addr st).
Proof.
  rewrite complete_task_run. unfold complete_task_steps.
  destruct (open_error env config_path);
    [exists 1%nat | destruct (open_error env training_args_path);
                    [exists 2%nat | exists 3%nat]];
    (split; [lia | reflexivity]).
Qed.

(** *** The device selection and the start of [perform] *)

Lemma select_gpu_index_run argv n st :
  exists g t,
    select_gpu_index argv n st = mk_run (Ok g) t st
    /\ ((exists line, t = [EvPrint line] /\ g = 0)
        \/ (t = [] /\ 0 <= g < n
            /\ exists arg2, nth_error argv 2 = Some arg2 /\ int_of_str arg2 = Some g)).
Proof.
  unfold select_gpu_index.
  destruct (nth_error argv 2) as [arg2|].
  - unfold try_except, bind, py_int.
    destruct (int_of_str arg2) as [i|] eqn:Hint; cbn [ret raise result trace final after].
    + destruct ((i <? 0) || (i >=? n)) eqn:Hout; cbn [ret raise result trace final after].
      * eexists _, _. split; [reflexivity|]. left. eexists. split; reflexivity.
      * apply orb_false_iff in Hout as [Hlo Hhi].
        apply Z.ltb_ge in Hlo. rewrite Z.geb_leb in Hhi. apply Z.leb_gt in Hhi.
        exists i, []. split; [reflexivity|]. right.
        split; [reflexivity|]. split; [lia|]. exists arg2. auto.
    + eexists _, _. split; [reflexivity|]. left. eexists. split; reflexivity.
  - eexists _, _. split; [reflexivity|]. left. eexists. split; reflexivity.
Qed.

(** Whatever the command line holds, with [n > 0] devices the selection
    ends normally on an index of an existing device, [0 <= g < n]; it
    starts no stage and touches no file. *)
Theorem select_gpu_index_in_range argv n st :
  0 < n ->
  exists g,
    result (select_gpu_index argv n st) = Ok g
    /\ 0 <= g < n
    /\ final (select_gpu_index argv n st) = st
    /\ forall s, count (stage_event s) (trace (select_gpu_index argv n st)) = O.
Proof.
  intros Hn. destruct (select_gpu_index_run argv n st) as (g & t & Hrun & Hcases).
  exists g. rewrite Hrun. cbn [result trace final].
  destruct Hcases as [(line & -> & ->)|(-> & Hg & _)];
    (split; [reflexivity|]; split; [lia|]; split; [reflexivity|by_stage]).
Qed.

Lemma select_gpu_index_in_range_witness :
  exists g,
    result (select_gpu_index ["execute.py"; "0xABC"; "12"] 4 fs0) = Ok g
    /\ 0 <= g < 4.
Proof.
  destruct (select_gpu_index_in_range ["execute.py"; "0xABC"; "12"] 4 fs0)
    as (g & Hg & Hrange & _); [lia|].
  exists g. split; assumption.
Defined.

(** A device other than 0 is selected only on request: the third argument
    is there, [int] reads it as that index, and the index is in range. *)
Theorem select_gpu_index_nonzero_inv argv n st g :
  result (select_gpu_index argv n st) = Ok g ->
  g <> 0 ->
  exists arg2,
    nth_error argv 2 = Some arg2 /\ int_of_str arg2 = Some g /\ 0 < g < n.
Proof.
  intros Hres Hg.
  destruct (select_gpu_index_run argv n st) as (g' & t & Hrun & Hcases).
  rewrite Hrun in Hres. cbn [result] in Hres. injection Hres as ->.
  destruct Hcases as [(line & _ & ->)|(_ & Hrange & arg2 & Harg & Hint)];
    [contradiction|].
  exists arg2. repeat split; solve [assumption | lia].
Qed.

Lemma select_gpu_index_nonzero_inv_witness :
  exists arg2,
    nth_error ["execute.py"; "0xABC"; " +1 "] 2 = Some arg2
    /\ int_of_str arg2 = Some 1 /\ 0 < 1 < 2.
Proof.
  apply (select_gpu_index_nonzero_inv ["execute.py"; "0xABC"; " +1 "] 2 fs0 1);
    [reflexivity | lia].
Defined.

Lemma for_each_print_trace {A} (l : list A) (text : A -> string) color st :
  trace (for_each l (fun x => print_in_color (text x) color) st)
  = map (fun x => EvPrint (color ++ text x ++ END_COLOR)) l.
Proof.
  revert st. induction l as [|x l IH]; intros st; [reflexivity|].
  cbn [for_each map]. unfold print_in_color at 1, print. rewrite bind_emit.
  cbn [after trace app]. rewrite IH. reflexivity.
Qed.

Lemma startup_run w st addr g t :
  nth_error (sys_argv w) 1 = Some addr ->
  device_count w <> 0 ->
  select_gpu_index (sys_argv w) (device_count w) st = mk_run (Ok g) t st ->
  startup w st
  = mk_run (Ok (Some (addr, g)))
      (EvPrint (YELLOW ++ "Available CUDA devices:" ++ END_COLOR)
       :: map (device_line w) (range (device_count w))
       ++ t
       ++ [EvPrint (YELLOW ++ ("Address " ++ addr ++ " started to work on GPU "
                               ++ str_of_int g ++ ".") ++ END_COLOR)])
      st.
Proof.
  intros Haddr Hn Hrun. apply Z.eqb_neq in Hn.
  unfold startup. rewrite Haddr, Hn.
  unfold print_in_color at 1, print. rewrite bind_emit.
  destruct (for_each_print_run (range (device_count w))
              (fun i => str_of_int i ++ ": " ++ get_device_name w i) YELLOW st)
    as (Hr & Hf & _).
  rewrite (bind_ok _ _ _ _ Hr), Hf, for_each_print_trace.
  rewrite (bind_ok (select_gpu_index _ _) _ st g) by (rewrite Hrun; reflexivity).
  rewrite Hrun. cbn [result trace final].
  unfold print_in_color, print. rewrite bind_emit.
  unfold ret, after, device_line. cbn [result trace final app].
  reflexivity.
Qed.

(** With an address and a device count other than 0, [perform] gets to its
    loop: before it, it prints the heading, one line per device in the
    order [0 .. n-1], what the selection prints, and the line that names
    the address and the selected index; no file is touched. *)
Theorem startup_lists_devices w st addr :
  nth_error (sys_argv w) 1 = Some addr ->
  device_count w <> 0 ->
  exists g,
    result (select_gpu_index (sys_argv w) (device_count w) st) = Ok g
    /\ startup w st
       = mk_run (Ok (Some (addr, g)))
           (EvPrint (YELLOW ++ "Available CUDA devices:" ++ END_COLOR)
            :: map (device_line w) (range (device_count w))
            ++ trace (select_gpu_index (sys_argv w) (device_count w) st)
            ++ [EvPrint (YELLOW ++ ("Address " ++ addr ++ " started to work on GPU "
                                    ++ str_of_int g ++ ".") ++ END_COLOR)])
           st.
Proof.
  intros Haddr Hn.
  destruct (select_gpu_index_run (sys_argv w) (device_count w) st)
    as (g & t & Hrun & _).
  exists g. rewrite (startup_run w st addr g t Haddr Hn Hrun), Hrun.
  split; reflexivity.
Qed.

Lemma startup_lists_devices_witness :
  exists g,
    result (select_gpu_index ["execute.py"; "0xABC"; "1"] 2 fs0) = Ok g
    /\ trace (startup (world_sample ["execute.py"; "0xABC"; "1"] 2) fs0)
       = [EvPrint (YELLOW ++ "Available CUDA devices:" ++ END_COLOR);
          EvPrint (YELLOW ++ "0: GPU" ++ END_COLOR);
          EvPrint (YELLOW ++ "1: GPU" ++ END_COLOR);
          EvPrint (YELLOW ++ "Address 0xABC started to work on GPU 1." ++ END_COLOR)].
Proof.
  destruct (startup_lists_devices (world_sample ["execute.py"; "0xABC"; "1"] 2) fs0
              "0xABC" eq_refl) as (g & Hg & Hrun); [simpl; discriminate|].
  exists g. split; [exact Hg|].
  rewrite Hrun. cbn [trace]. vm_compute in Hg. injection Hg as <-. reflexivity.
Defined.

(** *** One cycle, whatever the outside does *)

Lemma cycle_unfold env addr gpu_index st :
  cycle env addr gpu_index st =
  let head := (cycle_head ++ [EvPost (register_request addr)])%list in
  match result (register_particle env addr st) with
  | Raise e => caught e head st st
  | Ok task_args =>
      let t2 := (head ++ [received_line addr; training_line;
                          EvTrain task_args gpu_index])%list in
      match train_error env task_args gpu_index with
      | Some e => caught e t2 st st
      | None =>
          let r3 := complete_task env addr st in
          let t3 := (t2 ++ executed_line addr :: trace r3)%list in
          match result r3 with
          | Raise e => caught e t3 st (final r3)
          | Ok _ => mk_run (Ok tt) (t3 ++ [EvPrint (completed_line addr)]) (final r3)
          end
      end
  end.
Proof.
  rewrite cycle_run, cycle_body_run. cbv zeta.
  destruct (register_particle_run env addr st) as [Ht1 _]. rewrite Ht1.
  destruct (result (register_particle env addr st)) as [task_args|e].
  2:{ unfold caught. cbn [result trace final].
      destruct (isinstance e Exception); reflexivity. }
  rewrite execute_run. cbn [result trace].
  destruct (train_error env task_args gpu_index) as [e|].
  { unfold caught. cbn [result trace final].
    destruct (isinstance e Exception); reflexivity. }
  destruct (result (complete_task env addr st)) as [ack|e].
  - cbn [result trace final]. f_equal.
  - unfold caught. cbn [result trace final].
    destruct (isinstance e Exception); reflexivity.
Qed.

Lemma eqb_app_same a x y : String.eqb (a ++ x) (a ++ y) = String.eqb x y.
Proof.
  induction a as [|c a IH]; [reflexivity|].
  cbn [append String.eqb]. rewrite Ascii.eqb_refl. exact IH.
Qed.

Lemma string_app_assoc (a b c : string) : ((a ++ b) ++ c = a ++ (b ++ c))%string.
Proof. induction a as [|x a IH]; [reflexivity|]. cbn [append]. rewrite IH. reflexivity. Qed.

Lemma is_completed_completed addr :
  is_completed addr (EvPrint (completed_line addr)) = true.
Proof. apply String.eqb_refl. Qed.

Lemma is_completed_executed addr : is_completed addr (executed_line addr) = false.
Proof.
  unfold is_completed, executed_line, completed_line, GREEN, ESC.
  cbn [append String.eqb Ascii.eqb Bool.eqb].
  rewrite !string_app_assoc, eqb_app_same. reflexivity.
Qed.

Lemma is_completed_error_report addr e : is_completed addr (error_report e) = false.
Proof. reflexivity. Qed.

Lemma is_error_report_completed addr :
  is_error_report (EvPrint (completed_line addr)) = false.
Proof. reflexivity. Qed.

(** The trace of [complete_task] holds opens and at most one request. *)
Lemma complete_task_trace_counts env addr st p :
  (forall path mode, p (EvOpen path mode) = false) ->
  (forall q, p (EvPost q) = false) ->
  count p (trace (complete_task env addr st)) = O.
Proof.
  intros Hopen Hpost. rewrite complete_task_run.
  destruct (open_error env config_path);
    [|destruct (open_error env training_args_path)];
    cbn [trace]; rewrite ?count_cons, ?Hopen, ?Hpost; reflexivity.
Qed.

(** Every cycle that ends normally printed one closing line: the
    completion line or one error report, never both, never neither; a
    cycle left by an exception printed neither. *)
Theorem cycle_reports_once env addr gpu_index st :
  let r := cycle env addr gpu_index st in
  (count is_error_report (trace r) + count (is_completed addr) (trace r))%nat
  = match result r with
    | Ok _ => 1%nat
    | Raise _ => O
    end.
Proof.
  cbv zeta. rewrite cycle_unfold. cbv zeta.
  assert (Hc3e : count is_error_report (trace (complete_task env addr st)) = O)
    by (apply complete_task_trace_counts; reflexivity).
  assert (Hc3c : count (is_completed addr) (trace (complete_task env addr st)) = O)
    by (apply complete_task_trace_counts; reflexivity).
  assert (Hexe := is_completed_executed addr).
  assert (Hrep := error_report_is_error_report).
  assert (Hcc := is_completed_completed addr).
  destruct (result (register_particle env addr st)) as [task_args|e].
  2:{ unfold caught. destruct (isinstance e Exception); cbn [result trace];
      rewrite ?count_app, ?count_cons, ?Hrep; reflexivity. }
  destruct (train_error env task_args gpu_index) as [e|].
  { unfold caught. destruct (isinstance e Exception); cbn [result trace];
      rewrite ?count_app, ?count_cons, ?Hrep; reflexivity. }
  destruct (result (complete_task env addr st)) as [ack|e].
  - cbn [result trace].
    rewrite ?count_app, ?count_cons, Hc3e, Hc3c, Hexe, Hcc. reflexivity.
  - unfold caught. destruct (isinstance e Exception); cbn [result trace];
      rewrite ?count_app, ?count_cons, ?Hc3e, ?Hc3c, ?Hexe, ?Hrep; reflexivity.
Qed.

(** The executor runs at most once in a cycle, only after a task was
    acquired, and on exactly that task and the given GPU index. *)
Theorem cycle_trains_on_acquired_task env addr gpu_index st :
  filter is_train (trace (cycle env addr gpu_index st))
  = match result (register_particle env addr st) with
    | Ok task_args => [EvTrain task_args gpu_index]
    | Raise _ => []
    end.
Proof.
  rewrite cycle_unfold. cbv zeta.
  assert (Hc3 : filter is_train (trace (complete_task env addr st)) = []).
  { rewrite complete_task_run.
    destruct (open_error env config_path);
      [|destruct (open_error env training_args_path)]; reflexivity. }
  destruct (result (register_particle env addr st)) as [task_args|e].
  2:{ unfold caught. destruct (isinstance e Exception); reflexivity. }
  destruct (train_error env task_args gpu_index) as [e|].
  { unfold caught. destruct (isinstance e Exception); reflexivity. }
  destruct (result (complete_task env addr st)) as [ack|e].
  - cbn [trace]. rewrite !filter_app. cbn [filter is_train received_line
      training_line executed_line cycle_head app]. rewrite Hc3. reflexivity.
  - unfold caught. destruct (isinstance e Exception); cbn [trace];
      rewrite !filter_app; cbn [filter is_train received_line training_line
        executed_line cycle_head error_report app]; rewrite Hc3; reflexivity.
Qed.

(** *** The loop, whatever the outside does *)

Lemma register_particle_raises_error env addr st e :
  raises_only_errors env ->
  result (register_particle env addr st) = Raise e ->
  isinstance e Exception = true.
Proof.
  intros (Hpost & _ & _).
  unfold register_particle, bind, requests_post. cbn [result trace final].
  destruct (post_reply env _) as [resp|e0] eqn:Hreply.
  2:{ intros H. injection H as <-. exact (Hpost _ _ Hreply). }
  cbn [result trace final after].
  destruct (status_code resp =? 200); cbn [negb];
    [|intros H; injection H as <-; reflexivity].
  unfold response_json. destruct (json resp) as [task|];
    [|intros H; injection H as <-; reflexivity].
  unfold lift, ret, after. cbn [result trace final].
  destruct task as [| | | | |items|entries]; cbn [getitem];
    try (intros H; injection H as <-; reflexivity).
  destruct (dict_get entries "args"); [discriminate|].
  intros H; injection H as <-; reflexivity.
Qed.

Lemma complete_task_raises_error env addr st e :
  raises_only_errors env ->
  result (complete_task env addr st) = Raise e ->
  isinstance e Exception = true.
Proof.
  intros (Hpost & Hopen & _). rewrite complete_task_run.
  destruct (open_error env config_path) as [e1|] eqn:H1.
  { intros H. injection H as <-. exact (Hopen _ _ H1). }
  destruct (open_error env training_args_path) as [e2|] eqn:H2.
  { intros H. injection H as <-. exact (Hopen _ _ H2). }
  cbn [result]. unfold upload_outcome.
  destruct (post_reply env _) as [resp|e0] eqn:Hreply.
  2:{ intros H. injection H as <-. exact (Hpost _ _ Hreply). }
  destruct (status_code resp =? 200); cbn [negb];
    [|intros H; injection H as <-; reflexivity].
  destruct (json resp); [discriminate|].
  intros H; injection H as <-; reflexivity.
Qed.

Lemma cycle_ends_normally env addr gpu_index st :
  raises_only_errors env ->
  result (cycle env addr gpu_index st) = Ok tt.
Proof.
  intros Henv. rewrite cycle_unfold. cbv zeta.
  destruct (result (register_particle env addr st)) as [task_args|e] eqn:Hr1.
  2:{ unfold caught.
      rewrite (register_particle_raises_error env addr st e Henv Hr1). reflexivity. }
  destruct (train_error env task_args gpu_index) as [e|] eqn:Htrain.
  { unfold caught. destruct Henv as (_ & _ & Ht).
    rewrite (Ht _ _ _ Htrain). reflexivity. }
  destruct (result (complete_task env addr st)) as [ack|e] eqn:Hr3; [reflexivity|].
  unfold caught. rewrite (complete_task_raises_error env addr st e Henv Hr3).
  reflexivity.
Qed.

(** Fail-forward.  In an outside whose failures are all errors (nothing
    raised by the network, the file system or the training is outside
    [Exception]), no cycle ends the loop: after any number of turns the
    process is at the top of the loop, about to start the next one; so is
    [perform] once it has an address and a device. *)
Theorem worker_loop_goes_on envs addr :
  (forall i, raises_only_errors (envs i)) ->
  (forall fuel gpu_index k st,
      result (worker_loop fuel envs k addr gpu_index st) = Looping (k + fuel))
  /\ (forall fuel w st,
        cycles w = envs -> nth_error (sys_argv w) 1 = Some addr ->
        device_count w <> 0 ->
        result (perform fuel w st) = Looping fuel).
Proof.
  intros Henvs.
  assert (Hloop : forall fuel g k st,
             result (worker_loop fuel envs k addr g st) = Looping (k + fuel)).
  { induction fuel as [|fuel IH]; intros g k st.
    - cbn [worker_loop result]. f_equal. lia.
    - cbn [worker_loop]. rewrite (cycle_ends_normally _ _ _ _ (Henvs k)).
      cbn [after result]. rewrite IH. f_equal. lia. }
  split; [exact Hloop|].
  intros fuel w st Hcycles Haddr Hn.
  destruct (select_gpu_index_run (sys_argv w) (device_count w) st)
    as (g & t & Hsel & _).
  unfold perform. rewrite (startup_run w st addr g t Haddr Hn Hsel).
  cbn [result trace final after]. rewrite Hcycles, Hloop. reflexivity.
Qed.

Lemma env_ok_raises_only_errors : raises_only_errors env_ok.
Proof.
  repeat split.
  - intros q e. cbn [env_ok post_reply].
    destruct (String.eqb (url q) register_url); discriminate.
  - discriminate.
  - discriminate.
Qed.

Lemma env_500_raises_only_errors : raises_only_errors env_500.
Proof. repeat split; discriminate. Qed.

Lemma worker_loop_goes_on_witness :
  result (perform 3 (mk_world ["execute.py"; "0xABC"] 1 (fun _ => "GPU")
                       (fun i => if Nat.even i then env_500 else env_ok)) fs0)
  = Looping 3.
Proof.
  apply (proj2 (worker_loop_goes_on
                  (fun i => if Nat.even i then env_500 else env_ok) "0xABC"
                  (fun i => match Nat.even i as b
                                  return raises_only_errors (if b then env_500 else env_ok)
                            with
                            | true => env_500_raises_only_errors
                            | false => env_ok_raises_only_errors
                            end))).
  - reflexivity.
  - reflexivity.
  - simpl. discriminate.
Defined.

Lemma complete_task_filter env addr st p :
  (forall path mode, p (EvOpen path mode) = false) ->
  (forall file1 file2, p (EvPost (complete_request addr file1 file2)) = false) ->
  filter p (trace (complete_task env addr st)) = [].
Proof.
  intros Hopen Hpost. rewrite complete_task_run.
  destruct (open_error env config_path);
    [|destruct (open_error env training_args_path)];
    cbn [trace filter]; rewrite ?Hopen, ?Hpost; reflexivity.
Qed.

(** What a cycle shows to a reading [p] that looks neither at printed
    lines, nor at files, nor at the training, nor at the upload. *)
Lemma cycle_filter_head env addr gpu_index st p :
  (forall line, p (EvPrint line) = false) ->
  (forall path mode, p (EvOpen path mode) = false) ->
  (forall task_args g, p (EvTrain task_args g) = false) ->
  (forall file1 file2, p (EvPost (complete_request addr file1 file2)) = false) ->
  filter p (trace (cycle env addr gpu_index st))
  = filter p [EvSleep 10; EvPost (register_request addr)].
Proof.
  intros Hprint Hopen Htrain Hpost. rewrite cycle_unfold. cbv zeta.
  pose proof (complete_task_filter env addr st p Hopen Hpost) as Hc3.
  unfold caught, cycle_head, received_line, training_line, executed_line, error_report.
  destruct (result (register_particle env addr st)) as [task_args|e].
  2:{ destruct (isinstance e Exception); cbn [trace app filter];
      rewrite ?filter_app; cbn [filter]; rewrite ?Hprint;
      destruct (p (EvSleep 10)), (p (EvPost (register_request addr))); reflexivity. }
  destruct (train_error env task_args gpu_index) as [e|].
  { destruct (isinstance e Exception); cbn [trace app filter];
      rewrite ?filter_app; cbn [filter app]; rewrite ?Hprint, ?Htrain;
      destruct (p (EvSleep 10)), (p (EvPost (register_request addr))); reflexivity. }
  destruct (result (complete_task env addr st)) as [ack|e];
    [|destruct (isinstance e Exception)]; cbn [trace app filter];
    rewrite ?filter_app; cbn [filter app]; rewrite ?Hprint, ?Htrain, ?Hc3;
    destruct (p (EvSleep 10)), (p (EvPost (register_request addr))); reflexivity.
Qed.

(** Pacing.  Every turn of the loop waits ten seconds once and then sends
    one acquire request, whatever happened in the turns before: [c] turns
    begun are [c] waits of 10 and [c] acquire requests for the same
    address, with no growing delay; [c] is the number of turns allowed
    unless an exception ended the loop earlier. *)
Theorem worker_loop_paced fuel envs k addr gpu_index st :
  let r := worker_loop fuel envs k addr gpu_index st in
  exists c, (c <= fuel)%nat
    /\ filter is_sleep (trace r) = repeat (EvSleep 10) c
    /\ filter (stage_entry Acquire) (trace r)
       = repeat (EvPost (register_request addr)) c
    /\ (forall k', result r = Looping k' -> c = fuel /\ k' = (k + fuel)%nat).
Proof.
  cbv zeta. revert k st. induction fuel as [|fuel IH]; intros k st.
  - exists O. cbn [worker_loop result trace].
    split; [lia|]. split; [reflexivity|]. split; [reflexivity|].
    intros k' H. injection H as <-. lia.
  - cbn [worker_loop].
    assert (Hs : filter is_sleep (trace (cycle (envs k) addr gpu_index st))
                 = [EvSleep 10])
      by (rewrite cycle_filter_head; reflexivity).
    assert (Ha : filter (stage_entry Acquire) (trace (cycle (envs k) addr gpu_index st))
                 = [EvPost (register_request addr)])
      by (rewrite cycle_filter_head; reflexivity).
    destruct (result (cycle (envs k) addr gpu_index st)).
    + destruct (IH (S k) (final (cycle (envs k) addr gpu_index st)))
        as (c & Hc & Hsl & Hac & Hres).
      exists (S c). cbn [after result trace]. rewrite !filter_app, Hs, Ha, Hsl, Hac.
      split; [lia|]. split; [reflexivity|]. split; [reflexivity|].
      intros k' H. destruct (Hres k' H). lia.
    + exists 1%nat. cbn [result trace]. rewrite Hs, Ha.
      split; [lia|]. split; [reflexivity|]. split; [reflexivity|].
      discriminate.
Qed.

(** A cycle in which no stage fails runs the stages once each and in
    order: the wait, the acquire request, the training on the task
    received, the two opens and the upload, with the three progress lines
    in between and after; nothing is reported as an error, and when the
    cycle is over no file it opened is open: the table of open files is as
    the cycle found it. *)
Theorem cycle_success env addr gpu_index st :
  failed_stage env addr gpu_index st = None ->
  exists task_args,
    result (register_particle env addr st) = Ok task_args
    /\ cycle env addr gpu_index st
       = mk_run (Ok tt)
           (cycle_head
            ++ [EvPost (register_request addr); received_line addr;
                training_line; EvTrain task_args gpu_index; executed_line addr]
            ++ complete_task_steps addr st
            ++ [EvPrint (completed_line addr)])
           st.
Proof.
  unfold failed_stage. cbv zeta.
  destruct (register_particle_run env addr st) as [_ Hf1]. rewrite Hf1.
  rewrite cycle_unfold. cbv zeta.
  destruct (result (register_particle env addr st)) as [task_args|e]; [|discriminate].
  rewrite execute_run. cbn [result final].
  destruct (train_error env task_args gpu_index) as [e|]; [discriminate|].
  rewrite complete_task_run.
  destruct (open_error env config_path); [discriminate|].
  destruct (open_error env training_args_path); [discriminate|].
  cbn [result trace final].
  destruct (upload_outcome env _); [|discriminate].
  intros _. exists task_args. split; [reflexivity|].
  unfold complete_task_steps. rewrite <- !app_assoc. reflexivity.
Qed.

Lemma cycle_success_witness :
  result (cycle env_ok "0xABC" 0 fs0) = Ok tt
  /\ final (cycle env_ok "0xABC" 0 fs0) = fs0.
Proof.
  destruct (cycle_success env_ok "0xABC" 0 fs0 eq_refl) as (task_args & _ & Hrun).
  rewrite Hrun. split; reflexivity.
Defined.

Lemma cycle_files env addr gpu_index st :
  exists extra, (length extra <= 2)%nat
    /\ open_files (final (cycle env addr gpu_index st))
       = (open_files st ++ extra)%list.
Proof.
  assert (H0 : exists extra, (length extra <= 2)%nat
                 /\ open_files st = (open_files st ++ extra)%list).
  { exists []. rewrite app_nil_r. split; [simpl; lia|reflexivity]. }
  destruct (result (cycle env addr gpu_index st)) as [[]|e] eqn:Hres.
  { rewrite (cycle_restores_files _ _ _ _ Hres). exact H0. }
  rewrite cycle_unfold in Hres |- *. cbv zeta in Hres |- *.
  unfold caught in Hres |- *.
  destruct (result (register_particle env addr st)) as [task_args|e1].
  2:{ destruct (isinstance e1 Exception); [discriminate|exact H0]. }
  destruct (train_error env task_args gpu_index) as [e2|].
  { destruct (isinstance e2 Exception); [discriminate|exact H0]. }
  destruct (result (complete_task env addr st)) as [ack|e3]; [discriminate|].
  destruct (isinstance e3 Exception); [discriminate|]. cbn [final].
  rewrite complete_task_run.
  destruct (open_error env config_path);
    [|destruct (open_error env training_args_path)]; cbn [final]; try exact H0.
  destruct (upload_outcome env _); [exact H0|]. cbn [open_files].
  eexists [_; _]. rewrite <- app_assoc. split; [simpl; lia|reflexivity].
Qed.

Lemma cycle_never_closes env addr gpu_index st :
  filter is_close (trace (cycle env addr gpu_index st)) = [].
Proof. rewrite cycle_filter_head; reflexivity. Qed.

(** The loop never closes a file: over any number of turns its trace holds
    no close, every file that was open at the start is still open at the
    end, in place, and at most two more per turn have been added. *)
Theorem worker_loop_keeps_files_open fuel envs k addr gpu_index st :
  let r := worker_loop fuel envs k addr gpu_index st in
  filter is_close (trace r) = []
  /\ exists extra, (length extra <= 2 * fuel)%nat
       /\ open_files (final r) = (open_files st ++ extra)%list.
Proof.
  cbv zeta. revert k st. induction fuel as [|fuel IH]; intros k st.
  - cbn [worker_loop trace final]. split; [reflexivity|].
    exists []. rewrite app_nil_r. split; [simpl; lia|reflexivity].
  - cbn [worker_loop].
    pose proof (cycle_never_closes (envs k) addr gpu_index st) as Hcl.
    destruct (cycle_files (envs k) addr gpu_index st) as (x1 & Hl1 & Hx1).
    destruct (result (cycle (envs k) addr gpu_index st)).
    + destruct (IH (S k) (final (cycle (envs k) addr gpu_index st)))
        as (Hcl' & x2 & Hl2 & Hx2).
      cbn [after trace final]. rewrite filter_app, Hcl, Hcl'.
      split; [reflexivity|].
      exists (x1 ++ x2)%list. rewrite Hx2, Hx1, app_assoc, length_app.
      split; [lia|reflexivity].
    + cbn [trace final]. split; [exact Hcl|].
      exists x1. split; [lia|exact Hx1].
Qed.



Lemma complete_task_requests env addr st :
  Forall (request_of addr) (trace (complete_task env addr st)).
Proof.
  rewrite complete_task_run.
  destruct (open_error env config_path);
    [|destruct (open_error env training_args_path)];
    cbn [trace]; repeat (apply Forall_cons; [try exact I|]); try apply Forall_nil.
  right. eexists _, _. repeat split.
Qed.

Lemma cycle_requests env addr gpu_index st :
  Forall (request_of addr) (trace (cycle env addr gpu_index st)).
Proof.
  rewrite cycle_unfold. cbv zeta.
  pose proof (complete_task_requests env addr st) as H3.
  assert (Hhead : Forall (request_of addr)
                    (cycle_head ++ [EvPost (register_request addr)])).
  { repeat constructor. }
  unfold caught.
  destruct (result (register_particle env addr st)) as [task_args|e].
  2:{ destruct (isinstance e Exception); cbn [trace];
      rewrite ?Forall_app; repeat split; auto; repeat constructor. }
  destruct (train_error env task_args gpu_index) as [e|].
  { destruct (isinstance e Exception); cbn [trace];
      rewrite ?Forall_app; repeat split; auto; repeat constructor. }
  destruct (result (complete_task env addr st)) as [ack|e];
    [|destruct (isinstance e Exception)]; cbn [trace];
    rewrite ?Forall_app; repeat split; auto; repeat constructor; auto.
Qed.

(** The loop talks to the coordinator for one address only: every request
    in its trace is the acquire request for [addr] or an upload to the
    submit endpoint carrying the two artifact files and [addr]; no other
    URL, address or file is ever sent. *)
Theorem worker_loop_requests fuel envs k addr gpu_index st :
  Forall (request_of addr) (trace (worker_loop fuel envs k addr gpu_index st)).
Proof.
  revert k st. induction fuel as [|fuel IH]; intros k st.
  - constructor.
  - cbn [worker_loop].
    pose proof (cycle_requests (envs k) addr gpu_index st) as Hc.
    destruct (result (cycle (envs k) addr gpu_index st)); cbn [after trace].
    + apply Forall_app. split; [exact Hc|apply IH].
    + exact Hc.
Qed.

Lemma worker_loop_not_returned fuel envs k addr gpu_index st :
  result (worker_loop fuel envs k addr gpu_index st) <> Returned.
Proof.
  revert k st. induction fuel as [|fuel IH]; intros k st.
  - discriminate.
  - cbn [worker_loop].
    destruct (result (cycle (envs k) addr gpu_index st)); cbn [after result].
    + apply IH.
    + discriminate.
Qed.

(** [perform] returns in just two cases: the address argument is missing,
    or the device count is 0.  In every other case it is in its loop, or
    was thrown out of it by an exception, however many turns are run. *)
Theorem perform_returns_iff fuel w st :
  result (perform fuel w st) = Returned
  <-> (length (sys_argv w) < 2)%nat \/ device_count w = 0.
Proof.
  unfold perform.
  destruct (nth_error (sys_argv w) 1) as [addr|] eqn:Haddr.
  2:{ unfold startup. rewrite Haddr. apply nth_error_None in Haddr.
      split; [intros _; left; lia|reflexivity]. }
  assert (Hlen : ~ (length (sys_argv w) < 2)%nat).
  { intros H. assert (nth_error (sys_argv w) 1 = None) by (apply nth_error_None; lia).
    congruence. }
  destruct (Z.eq_dec (device_count w) 0) as [Hn|Hn].
  { unfold startup. rewrite Haddr, Hn.
    split; [intros _; right; reflexivity|reflexivity]. }
  destruct (select_gpu_index_run (sys_argv w) (device_count w) st)
    as (g & t & Hsel & _).
  rewrite (startup_run w st addr g t Haddr Hn Hsel). cbn [result trace final after].
  split.
  - intros H. exfalso. exact (worker_loop_not_returned _ _ _ _ _ _ H).
  - intros [H|H]; contradiction.
Qed.

Lemma perform_returns_iff_witness :
  (length (sys_argv (world_sample ["execute.py"; "0xABC"] 0)) < 2)%nat
  \/ device_count (world_sample ["execute.py"; "0xABC"] 0) = 0.
Proof.
  apply (proj1 (perform_returns_iff 2 (world_sample ["execute.py"; "0xABC"] 0) fs0)).
  reflexivity.
Defined.

(** *** The address on the wire and the index on the command line *)

Lemma escape_char_plain c : is_plain c = true -> escape_char c = String c EmptyString.
Proof.
  unfold is_plain, escape_char. cbv zeta.
  generalize (nat_of_ascii c). intros n H.
  apply andb_true_iff in H as [H H92]. apply andb_true_iff in H as [H H34].
  apply andb_true_iff in H as [Hlo Hhi].
  apply Nat.leb_le in Hlo, Hhi.
  apply negb_true_iff in H34, H92. rewrite H34, H92.
  repeat match goal with
         | |- context [(n =? ?k)%nat] =>
             replace (n =? k)%nat with false by (symmetry; apply Nat.eqb_neq; lia)
         end.
  replace (n <? 32)%nat with false by (symmetry; apply Nat.ltb_ge; lia).
  replace (126 <? n)%nat with false by (symmetry; apply Nat.ltb_ge; lia).
  reflexivity.
Qed.

Lemma escape_plain s : all_plain s = true -> escape s = s.
Proof.
  induction s as [|c s IH]; [reflexivity|].
  cbn [all_plain escape]. intros H. apply andb_true_iff in H as [Hc Hs].
  rewrite (escape_char_plain c Hc), (IH Hs). reflexivity.
Qed.

(** An address made of printable ASCII characters other than the double
    quote and the backslash (a hexadecimal wallet address is one) goes into
    the upload untouched: when the two artifacts open, the one request
    [complete_task] sends goes to [/complete_task] of the node with timeout
    60, and its part [r] has no file name, the content type
    [application/json] and the data [{"address": "<addr>"}] with the
    address as it was given. *)
Theorem complete_task_sends_address_verbatim env addr st :
  all_plain addr = true ->
  open_error env config_path = None ->
  open_error env training_args_path = None ->
  filter is_post (trace (complete_task env addr st))
  = [EvPost
       (mk_request "https://mainnet.nimble.technology:443/complete_task" 60
          (FilesPayload
             [("file1", FilePart (mk_file (next_fd st) "my_model/config.json"));
              ("file2", FilePart (mk_file (S (next_fd st)) "my_model/training_args.bin"));
              ("r", FieldPart None
                      ("{" ++ dquote ++ "address" ++ dquote ++ ": "
                       ++ dquote ++ addr ++ dquote ++ "}")
                      "application/json")]))].
Proof.
  intros H H1 H2. rewrite complete_task_run, H1, H2. cbn [trace filter is_post].
  unfold complete_request. cbn [json_dumps].
  unfold json_string. rewrite (escape_plain addr H).
  do 5 f_equal. cbn [escape escape_char nat_of_ascii].
  rewrite !string_app_assoc. reflexivity.
Qed.

Lemma complete_task_sends_address_verbatim_witness :
  exists q,
    filter is_post (trace (complete_task env_ok "0xABC" fs0)) = [EvPost q]
    /\ timeout q = 60.
Proof.
  eexists. split.
  - apply (complete_task_sends_address_verbatim env_ok "0xABC" fs0); reflexivity.
  - reflexivity.
Defined.

Lemma digits_value_uint_acc d p :
  digits_value (NilEmpty.string_of_uint d) (Z.pos p) true
  = Some (Z.pos (Pos.of_uint_acc d p)).
Proof.
  revert p. induction d; intros p;
    cbn [NilEmpty.string_of_uint digits_value Pos.of_uint_acc]; [reflexivity|..];
    (change (digit_of _) with (Some 0) || change (digit_of _) with (Some 1)
     || change (digit_of _) with (Some 2) || change (digit_of _) with (Some 3)
     || change (digit_of _) with (Some 4) || change (digit_of _) with (Some 5)
     || change (digit_of _) with (Some 6) || change (digit_of _) with (Some 7)
     || change (digit_of _) with (Some 8) || change (digit_of _) with (Some 9));
    cbv iota; rewrite <- IHd; f_equal; lia.
Qed.

Lemma digits_value_uint d b :
  d <> Decimal.Nil \/ b = true ->
  digits_value (NilEmpty.string_of_uint d) 0 b = Some (Z.of_N (Pos.of_uint d)).
Proof.
  revert b. induction d; intros b Hd;
    cbn [NilEmpty.string_of_uint digits_value Pos.of_uint].
  - destruct Hd as [Hd| ->]; [congruence|reflexivity].
  - change (digit_of "0") with (Some 0). cbv iota.
    change (10 * 0 + 0) with 0. apply IHd. right. reflexivity.
  - change (digit_of "1") with (Some 1). cbv iota. apply digits_value_uint_acc.
  - change (digit_of "2") with (Some 2). cbv iota. apply digits_value_uint_acc.
  - change (digit_of "3") with (Some 3). cbv iota. apply digits_value_uint_acc.
  - change (digit_of "4") with (Some 4). cbv iota. apply digits_value_uint_acc.
  - change (digit_of "5") with (Some 5). cbv iota. apply digits_value_uint_acc.
  - change (digit_of "6") with (Some 6). cbv iota. apply digits_value_uint_acc.
  - change (digit_of "7") with (Some 7). cbv iota. apply digits_value_uint_acc.
  - change (digit_of "8") with (Some 8). cbv iota. apply digits_value_uint_acc.
  - change (digit_of "9") with (Some 9). cbv iota. apply digits_value_uint_acc.
Qed.

(** A decimal numeral is left alone by [strip], and is not signed. *)
Lemma rstrip_uint d :
  rstrip (NilEmpty.string_of_uint d) = NilEmpty.string_of_uint d.
Proof.
  induction d; cbn [NilEmpty.string_of_uint rstrip]; [reflexivity|..];
    rewrite IHd; destruct (NilEmpty.string_of_uint d); reflexivity.
Qed.

Lemma int_of_str_uint d :
  d <> Decimal.Nil ->
  (digit_count (NilEmpty.string_of_uint d) <= int_max_str_digits)%nat ->
  int_of_str (NilEmpty.string_of_uint d) = Some (Z.of_N (Pos.of_uint d)).
Proof.
  intros Hd Hlen.
  assert (Hstrip : strip (NilEmpty.string_of_uint d) = NilEmpty.string_of_uint d).
  { unfold strip.
    replace (lstrip (NilEmpty.string_of_uint d)) with (NilEmpty.string_of_uint d)
      by (destruct d; reflexivity).
    apply rstrip_uint. }
  unfold int_of_str. rewrite Hstrip.
  assert (Hval : unsigned_value (NilEmpty.string_of_uint d)
                 = Some (Z.of_N (Pos.of_uint d))).
  { unfold unsigned_value.
    replace (int_max_str_digits <? digit_count (NilEmpty.string_of_uint d))%nat
      with false by (symmetry; apply Nat.ltb_ge; exact Hlen).
    apply digits_value_uint. left. exact Hd. }
  destruct d; try congruence; exact Hval.
Qed.

(** [int(str(i))] is [i] for an index [i >= 0] of at most 4300 digits. *)
Lemma int_of_str_of_int i :
  0 <= i ->
  (digit_count (str_of_int i) <= int_max_str_digits)%nat ->
  int_of_str (str_of_int i) = Some i.
Proof.
  intros Hi. unfold str_of_int.
  destruct i as [|p|p]; [intros _; reflexivity | | lia].
  cbn [Z.to_int NilZero.string_of_int].
  pose proof (Unsigned.to_uint_nonnil p) as Hnil.
  assert (Hs : NilZero.string_of_uint (Pos.to_uint p)
               = NilEmpty.string_of_uint (Pos.to_uint p)).
  { unfold NilZero.string_of_uint. destruct (Pos.to_uint p); congruence. }
  rewrite Hs. intros Hlen.
  rewrite (int_of_str_uint _ Hnil Hlen), Unsigned.of_to. reflexivity.
Qed.

(** The index [perform] prints in its start line is the index to ask for:
    given as third argument, the decimal numeral of a device index [i] with
    [0 <= i < n] (and at most 4300 digits, the interpreter's limit for
    [int]) selects device [i], silently. *)
Theorem select_gpu_index_of_numeral argv n i st :
  0 <= i < n ->
  (digit_count (str_of_int i) <= int_max_str_digits)%nat ->
  nth_error argv 2 = Some (str_of_int i) ->
  select_gpu_index argv n st = mk_run (Ok i) [] st.
Proof.
  intros Hi Hlen Harg. unfold select_gpu_index. rewrite Harg.
  unfold try_except, bind, py_int.
  rewrite (int_of_str_of_int i (proj1 Hi) Hlen). cbn [ret result trace final after].
  replace (i <? 0) with false by (symmetry; apply Z.ltb_ge; lia).
  replace (i >=? n) with false by (symmetry; rewrite Z.geb_leb; apply Z.leb_gt; lia).
  reflexivity.
Qed.

Lemma select_gpu_index_of_numeral_witness :
  select_gpu_index ["execute.py"; "0xABC"; str_of_int 11] 16 fs0
  = mk_run (Ok 11) [] fs0.
Proof.
  apply (select_gpu_index_of_numeral ["execute.py"; "0xABC"; str_of_int 11] 16 11 fs0);
    [lia | vm_compute; lia | reflexivity].
Defined.

(** *** The device index over the whole run *)

Lemma cycle_trains_on env addr gpu_index st (P : Z -> Prop) :
  P gpu_index ->
  Forall (fun ev => match ev with EvTrain _ g => P g | _ => True end)
         (trace (cycle env addr gpu_index st)).
Proof.
  intros HP. rewrite cycle_unfold. cbv zeta.
  assert (H3 : Forall (fun ev => match ev with EvTrain _ g => P g | _ => True end)
                 (trace (complete_task env addr st))).
  { rewrite complete_task_run.
    destruct (open_error env config_path);
      [|destruct (open_error env training_args_path)];
      cbn [trace]; repeat (apply Forall_cons; [exact I|]); apply Forall_nil. }
  unfold caught.
  destruct (result (register_particle env addr st)) as [task_args|e].
  2:{ destruct (isinstance e Exception); cbn [trace];
      rewrite ?Forall_app; repeat split; repeat constructor. }
  destruct (train_error env task_args gpu_index) as [e|].
  { destruct (isinstance e Exception); cbn [trace];
      rewrite ?Forall_app; repeat split; repeat constructor; exact HP. }
  destruct (result (complete_task env addr st)) as [ack|e];
    [|destruct (isinstance e Exception)]; cbn [trace];
    rewrite ?Forall_app; repeat split; repeat constructor; auto.
Qed.

Lemma worker_loop_trains_on fuel envs k addr gpu_index st (P : Z -> Prop) :
  P gpu_index ->
  Forall (fun ev => match ev with EvTrain _ g => P g | _ => True end)
         (trace (worker_loop fuel envs k addr gpu_index st)).
Proof.
  intros HP. revert k st. induction fuel as [|fuel IH]; intros k st.
  - constructor.
  - cbn [worker_loop].
    pose proof (cycle_trains_on (envs k) addr gpu_index st P HP) as Hc.
    destruct (result (cycle (envs k) addr gpu_index st)); cbn [after trace].
    + apply Forall_app. split; [exact Hc|apply IH].
    + exact Hc.
Qed.

(** With [n > 0] devices, every training the process ever starts runs on
    one and the same index [g] with [0 <= g < n], whatever the command line
    asks for and whatever the coordinator sends: the index is fixed before
    the loop and no cycle changes it. *)
Theorem perform_trains_on_one_valid_device fuel w st :
  0 < device_count w ->
  exists g, 0 <= g < device_count w
    /\ Forall (fun ev => match ev with EvTrain _ g' => g' = g | _ => True end)
              (trace (perform fuel w st)).
Proof.
  intros Hn.
  destruct (select_gpu_index_run (sys_argv w) (device_count w) st)
    as (g & t & Hsel & Hcases).
  assert (Hg : 0 <= g < device_count w).
  { destruct Hcases as [(line & _ & ->)|(_ & Hg & _)]; lia. }
  assert (Ht : Forall (fun ev => match ev with EvTrain _ g' => g' = g | _ => True end) t).
  { destruct Hcases as [(line & -> & _)|(-> & _)]; repeat constructor. }
  exists g. split; [exact Hg|].
  unfold perform.
  destruct (nth_error (sys_argv w) 1) as [addr|] eqn:Haddr.
  2:{ unfold startup. rewrite Haddr. repeat constructor. }
  rewrite (startup_run w st addr g t Haddr) by (lia || exact Hsel).
  cbn [result trace final after].
  constructor; [exact I|].
  rewrite !Forall_app. repeat split.
  - apply Forall_forall. intros ev Hin. apply in_map_iff in Hin as (x & <- & _). exact I.
  - exact Ht.
  - repeat constructor.
  - apply worker_loop_trains_on. reflexivity.
Qed.

Lemma perform_trains_on_one_valid_device_witness :
  exists g, 0 <= g < 2
    /\ Forall (fun ev => match ev with EvTrain _ g' => g' = g | _ => True end)
              (trace (perform 3 (world_sample ["execute.py"; "0xABC"; "9"] 2) fs0)).
Proof.
  apply (perform_trains_on_one_valid_device 3
           (world_sample ["execute.py"; "0xABC"; "9"] 2) fs0).
  simpl. lia.
Defined.
